(** * The custom hostnames client of cloudflare-go

    The development follows [custom_hostname.go].  The client is glue code
    between typed calls and an injected request dispatcher
    ([api.makeRequest]); what it owns is the construction of the request
    (method, path, query string, payload), the decoding of the response
    envelope and the shape of the values and errors it hands back.

    Layout:
    - [Url]  : the part of Go's [net/url] and [strconv] that the list
               operation uses ([url.Values], [Set], [Encode], [QueryEscape],
               [Itoa]);
    - [Json] : the part of Go's [encoding/json] that the operations use
               (the syntax, [Unmarshal] into the types of the file,
               [Marshal] with [omitempty]);
    - the types of the file, one module each, and its errors;
    - [Prog] : programs over one effect, the call of the dispatcher, and
               [API], the operations of the file as such programs;
    - the properties. *)

From Stdlib Require Import ZArith Ascii String List Bool Lia.
From Stdlib Require Import DecimalString DecimalPos DecimalZ.
From stdpp Require Import base gmap strings list sorting.

Set Warnings "-register-all".

Local Open Scope string_scope.
Local Open Scope list_scope.

(** ** Byte strings

    A Go [string] is a sequence of bytes; [==] on strings is equality of the
    byte sequences.  [String.string] is the same data. *)

Definition byte_of (c : ascii) : N := N_of_ascii c.

Definition in_range (lo hi c : ascii) : bool :=
  (byte_of lo <=? byte_of c)%N && (byte_of c <=? byte_of hi)%N.

(** [all_chars p s]: every byte of [s] satisfies [p]. *)
Fixpoint all_chars (p : ascii -> bool) (s : string) : bool :=
  match s with
  | EmptyString => true
  | String c s' => p c && all_chars p s'
  end.

(** [no_char sep s]: the byte [sep] does not occur in [s]. *)
Definition no_char (sep : ascii) (s : string) : bool :=
  all_chars (fun c => negb (Ascii.eqb c sep)) s.

(** The check of a property on each of the 256 bytes. *)
Definition all_bytes (p : ascii -> bool) : bool :=
  forallb (fun n => p (ascii_of_nat n)) (seq 0 256).

Module Url.

(** [upperhex] of [net/url]: the digits used by [escape]. *)
Definition upperhex : string := "0123456789ABCDEF".

Definition hex_digit (n : N) : ascii :=
  match String.get (N.to_nat n) upperhex with
  | Some c => c
  | None => "0"%char
  end.

(** [shouldEscape(c, encodeQueryComponent)]: letters, digits and the marks
    [-], [_], [.], [~] are kept; the reserved characters and everything else
    are escaped. *)
Definition shouldEscape (c : ascii) : bool :=
  if in_range "a" "z" c || in_range "A" "Z" c || in_range "0" "9" c then false
  else if Ascii.eqb c "-" || Ascii.eqb c "_" || Ascii.eqb c "." || Ascii.eqb c "~"
       then false
       else true.

(** One byte of [escape(s, encodeQueryComponent)]: a space becomes [+], any
    other escaped byte becomes [%XX] with upper-case digits. *)
Definition escape_byte (c : ascii) : string :=
  if shouldEscape c then
    if Ascii.eqb c " " then "+"
    else String "%" (String (hex_digit (byte_of c / 16))
                            (String (hex_digit (byte_of c mod 16)) ""))
  else String c "".

Fixpoint QueryEscape (s : string) : string :=
  match s with
  | EmptyString => ""
  | String c s' => escape_byte c +:+ QueryEscape s'
  end.

(** [unhex] and [ishex] of [net/url]. *)
Definition unhex (c : ascii) : option N :=
  if in_range "0" "9" c then Some (byte_of c - byte_of "0")%N
  else if in_range "a" "f" c then Some (byte_of c - byte_of "a" + 10)%N
  else if in_range "A" "F" c then Some (byte_of c - byte_of "A" + 10)%N
  else None.

(** [QueryUnescape]: [%XX] is decoded, [+] is a space, a [%] that is not
    followed by two hex digits is an error. *)
Fixpoint QueryUnescape (s : string) : option string :=
  match s with
  | EmptyString => Some ""
  | String "%" (String h (String l s')) =>
      match unhex h, unhex l, QueryUnescape s' with
      | Some a, Some b, Some r => Some (String (ascii_of_N (a * 16 + b)) r)
      | _, _, _ => None
      end
  | String "%" _ => None
  | String "+" s' => option_map (String " ") (QueryUnescape s')
  | String c s' => option_map (String c) (QueryUnescape s')
  end.

(** [strconv.Itoa]: the decimal rendering of an [int], with a leading [-]
    for a negative one. *)
Definition Itoa (n : Z) : string := NilZero.string_of_int (Z.to_int n).

(** [url.Values] is [map[string][]string]. *)
Abbreviation Values := (gmap string (list string)).

(** [v.Set(key, value)] replaces what the key holds by the one value. *)
Definition Set_ (key value : string) (v : Values) : Values :=
  <[key := [value]]> v.

(** [sort.Strings] orders by bytes, as [String.le] does. *)
Definition sorted_keys (v : Values) : list string :=
  merge_sort String.le (map_to_list v).*1.

(** The inner loop of [Encode] over the values of one key; [buf] is the
    text written so far. *)
Fixpoint encode_values (keyEscaped : string) (vs : list string) (buf : string)
  : string :=
  match vs with
  | [] => buf
  | x :: vs' =>
      let buf1 := if String.eqb buf "" then buf else buf +:+ "&" in
      encode_values keyEscaped vs' (buf1 +:+ keyEscaped +:+ "=" +:+ QueryEscape x)
  end.

Fixpoint encode_keys (v : Values) (keys : list string) (buf : string) : string :=
  match keys with
  | [] => buf
  | k :: keys' =>
      encode_keys v keys'
        (encode_values (QueryEscape k) (default [] (v !! k)) buf)
  end.

(** [v.Encode()]: the keys in sorted order, each value as [key=value],
    joined by [&]. *)
Definition Encode (v : Values) : string := encode_keys v (sorted_keys v) "".

(** The parameters of a query string, as a reader of the wire sees them: the
    text is cut at every [&], each piece at its first [=]. *)
Fixpoint split_at (sep : ascii) (s : string) : string * option string :=
  match s with
  | EmptyString => ("", None)
  | String c s' =>
      if Ascii.eqb c sep then ("", Some s')
      else let '(a, r) := split_at sep s' in (String c a, r)
  end.

Fixpoint pieces (fuel : nat) (sep : ascii) (s : string) : list string :=
  match fuel with
  | O => []
  | S fuel' =>
      match split_at sep s with
      | (a, None) => [a]
      | (a, Some r) => a :: pieces fuel' sep r
      end
  end.

Definition param (piece : string) : string * string :=
  match split_at "=" piece with
  | (k, None) => (k, "")
  | (k, Some v) => (k, v)
  end.

Definition params (query : string) : list (string * string) :=
  match query with
  | EmptyString => []
  | _ => List.map param (pieces (S (String.length query)) "&" query)
  end.

(** The bytes that [QueryEscape] writes: letters, digits, the four marks,
    [+] and [%]. *)
Definition escaped_char (c : ascii) : bool :=
  negb (shouldEscape c) || Ascii.eqb c "+" || Ascii.eqb c "%".

(** The bytes that [QueryEscape] keeps. *)
Definition kept_char (c : ascii) : bool := negb (shouldEscape c).

End Url.


(** ** encoding/json

    The syntax of JSON texts as Go's scanner accepts it, the decoding of a
    text into the types of this package ([json.Unmarshal]) and the encoding
    of these types ([json.Marshal]).

    Limits of the model: a number that is decoded into an [interface{}]
    keeps its literal (Go converts it to a float64 and rejects a literal out
    of its range); the position and the wording of a syntax error are not
    kept; the scanner's bound on the nesting depth is not modelled; when a
    key occurs several times in one object and holds an array, the elements
    are decoded over the elements read before, and nothing of a longer
    earlier array survives. *)

Module Json.

Inductive value :=
| JNull
| JBool (b : bool)
| JNumber (lit : string)
| JString (s : string)
| JArray (elems : list value)
| JObject (members : list (string * value)).

Inductive json_error :=
| SyntaxError
| UnmarshalTypeError (Value Type_ : string).

Inductive result (A : Type) :=
| Ok (a : A)
| Err (e : json_error).
Arguments Ok {A} a.
Arguments Err {A} e.

#[global] Instance result_ret : MRet result := fun _ a => Ok a.

#[global] Instance result_bind : MBind result := fun _ _ f r =>
  match r with
  | Ok a => f a
  | Err e => Err e
  end.

(** *** Scanner *)

Definition dquote : ascii := "034"%char.
Definition backslash : ascii := "092"%char.

Definition is_space (c : ascii) : bool :=
  Ascii.eqb c " " || Ascii.eqb c "009" || Ascii.eqb c "010" || Ascii.eqb c "013".

Definition is_digit (c : ascii) : bool := in_range "0" "9" c.

Definition is_hex (c : ascii) : bool :=
  match Url.unhex c with Some _ => true | None => false end.

Fixpoint skip_space (s : string) : string :=
  match s with
  | String c s' => if is_space c then skip_space s' else s
  | EmptyString => s
  end.

Fixpoint span (p : ascii -> bool) (s : string) : string * string :=
  match s with
  | String c s' =>
      if p c then let '(a, r) := span p s' in (String c a, r) else ("", s)
  | EmptyString => ("", "")
  end.

(** A literal word ([true], [false], [null]) at the head of the text. *)
Fixpoint expect (w s : string) : option string :=
  match w, s with
  | EmptyString, _ => Some s
  | String a w', String b s' => if Ascii.eqb a b then expect w' s' else None
  | String _ _, EmptyString => None
  end.

(** Numbers: an optional minus sign; then a zero, or a digit from 1 to 9
    followed by digits; then optionally a dot and one digit or more; then
    optionally an exponent: e or E, an optional sign, one digit or more. *)
Definition scan_digits1 (s : string) : option (string * string) :=
  match span is_digit s with
  | (EmptyString, _) => None
  | (d, r) => Some (d, r)
  end.

Definition scan_int (s : string) : option (string * string) :=
  match s with
  | String c s' =>
      if Ascii.eqb c "0" then Some ("0", s')
      else if in_range "1" "9" c
           then let '(d, r) := span is_digit s' in Some (String c d, r)
           else None
  | EmptyString => None
  end.

Definition scan_frac (s : string) : option (string * string) :=
  match s with
  | String c s' =>
      if Ascii.eqb c "."
      then match scan_digits1 s' with
           | Some (d, r) => Some (String c d, r)
           | None => None
           end
      else Some ("", s)
  | EmptyString => Some ("", s)
  end.

Definition scan_exp (s : string) : option (string * string) :=
  match s with
  | String c s' =>
      if Ascii.eqb c "e" || Ascii.eqb c "E"
      then match s' with
           | String g s'' =>
               if Ascii.eqb g "+" || Ascii.eqb g "-"
               then match scan_digits1 s'' with
                    | Some (d, r) => Some (String c (String g d), r)
                    | None => None
                    end
               else match scan_digits1 s' with
                    | Some (d, r) => Some (String c d, r)
                    | None => None
                    end
           | EmptyString => None
           end
      else Some ("", s)
  | EmptyString => Some ("", s)
  end.

Definition scan_unsigned (s : string) : option (string * string) :=
  match scan_int s with
  | Some (i, r1) =>
      match scan_frac r1 with
      | Some (f, r2) =>
          match scan_exp r2 with
          | Some (e, r3) => Some (i +:+ f +:+ e, r3)
          | None => None
          end
      | None => None
      end
  | None => None
  end.

Definition scan_number (s : string) : option (string * string) :=
  match s with
  | String c s' =>
      if Ascii.eqb c "-"
      then match scan_unsigned s' with
           | Some (n, r) => Some (String c n, r)
           | None => None
           end
      else scan_unsigned s
  | EmptyString => None
  end.

(** The text of a string literal after its opening quote: the raw content up
    to the closing quote and what follows it.  A control character, an
    unknown escape and a [\u] without four hex digits are errors. *)
Definition simple_escape (c : ascii) : bool :=
  Ascii.eqb c dquote || Ascii.eqb c backslash || Ascii.eqb c "/" ||
  Ascii.eqb c "b" || Ascii.eqb c "f" || Ascii.eqb c "n" ||
  Ascii.eqb c "r" || Ascii.eqb c "t".

Fixpoint scan_string (s : string) : option (string * string) :=
  match s with
  | EmptyString => None
  | String c s1 =>
      if Ascii.eqb c dquote then Some ("", s1)
      else if Ascii.eqb c backslash then
        match s1 with
        | String e s2 =>
            if simple_escape e then
              match scan_string s2 with
              | Some (raw, r) => Some (String c (String e raw), r)
              | None => None
              end
            else if Ascii.eqb e "u" then
              match s2 with
              | String h1 (String h2 (String h3 (String h4 s3))) =>
                  if is_hex h1 && is_hex h2 && is_hex h3 && is_hex h4 then
                    match scan_string s3 with
                    | Some (raw, r) =>
                        Some (String c (String e (String h1 (String h2
                               (String h3 (String h4 raw))))), r)
                    | None => None
                    end
                  else None
              | _ => None
              end
            else None
        | EmptyString => None
        end
      else if (byte_of c <? 32)%N then None
      else match scan_string s1 with
           | Some (raw, r) => Some (String c raw, r)
           | None => None
           end
  end.

(** *** Unquoting

    [unquote] turns the raw content of a literal into the bytes it denotes:
    escapes are replaced, [\uXXXX] becomes the UTF-8 encoding of the rune (a
    surrogate pair becomes one rune, a lone surrogate U+FFFD), and a byte
    sequence that is not valid UTF-8 becomes U+FFFD byte by byte. *)

Definition chr (n : N) : ascii := ascii_of_N n.

Definition utf8_encode (r : N) : string :=
  if (r <? 128)%N then String (chr r) ""
  else if (r <? 2048)%N then
    String (chr (192 + r / 64)) (String (chr (128 + r mod 64)) "")
  else if (r <? 65536)%N then
    String (chr (224 + r / 4096))
      (String (chr (128 + (r / 64) mod 64)) (String (chr (128 + r mod 64)) ""))
  else
    String (chr (240 + r / 262144))
      (String (chr (128 + (r / 4096) mod 64))
         (String (chr (128 + (r / 64) mod 64))
            (String (chr (128 + r mod 64)) ""))).

Definition replacement : string := utf8_encode 65533.

(** A continuation byte in [lo, hi], and the text after it. *)
Definition cont (lo hi : N) (s : string) : option string :=
  match s with
  | String c s' =>
      if (lo <=? byte_of c)%N && (byte_of c <=? hi)%N then Some s' else None
  | EmptyString => None
  end.

(** The length of the UTF-8 encoding at the head of the text, [0] when the
    head is not the start of a valid encoding ([utf8.DecodeRune]). *)
Definition utf8_size (s : string) : nat :=
  match s with
  | EmptyString => 0
  | String c s1 =>
      let b := byte_of c in
      if (b <? 128)%N then 1
      else if (b <? 194)%N then 0
      else if (b <? 224)%N then
        match cont 128 191 s1 with Some _ => 2 | None => 0 end
      else if (b <? 240)%N then
        let lo := if (b =? 224)%N then 160%N else 128%N in
        let hi := if (b =? 237)%N then 159%N else 191%N in
        match cont lo hi s1 with
        | Some s2 => match cont 128 191 s2 with Some _ => 3 | None => 0 end
        | None => 0
        end
      else if (b <? 245)%N then
        let lo := if (b =? 240)%N then 144%N else 128%N in
        let hi := if (b =? 244)%N then 143%N else 191%N in
        match cont lo hi s1 with
        | Some s2 =>
            match cont 128 191 s2 with
            | Some s3 => match cont 128 191 s3 with Some _ => 4 | None => 0 end
            | None => 0
            end
        | None => 0
        end
      else 0
  end.

Fixpoint take (n : nat) (s : string) : string :=
  match n, s with
  | S n', String c s' => String c (take n' s')
  | _, _ => ""
  end.

Fixpoint drop (n : nat) (s : string) : string :=
  match n, s with
  | S n', String _ s' => drop n' s'
  | _, _ => s
  end.

(** [getu4]: the rune of a [\uXXXX] at the head of the text. *)
Definition hex4 (s : string) : option N :=
  match s with
  | String h1 (String h2 (String h3 (String h4 _))) =>
      match Url.unhex h1, Url.unhex h2, Url.unhex h3, Url.unhex h4 with
      | Some a, Some b, Some c, Some d =>
          Some (((a * 16 + b) * 16 + c) * 16 + d)%N
      | _, _, _, _ => None
      end
  | _ => None
  end.

Definition getu4 (s : string) : option N :=
  match s with
  | String c (String e s') =>
      if Ascii.eqb c backslash && Ascii.eqb e "u" then hex4 s' else None
  | _ => None
  end.

Definition is_surrogate (r : N) : bool := (55296 <=? r)%N && (r <? 57344)%N.

(** [utf16.DecodeRune]: [None] stands for U+FFFD. *)
Definition utf16_decode (r1 : N) (r2 : option N) : option N :=
  match r2 with
  | Some r2 =>
      if (55296 <=? r1)%N && (r1 <? 56320)%N && (56320 <=? r2)%N && (r2 <? 57344)%N
      then Some ((r1 - 55296) * 1024 + (r2 - 56320) + 65536)%N
      else None
  | None => None
  end.

Definition unescape_char (e : ascii) : ascii :=
  if Ascii.eqb e "b" then "008"
  else if Ascii.eqb e "f" then "012"
  else if Ascii.eqb e "n" then "010"
  else if Ascii.eqb e "r" then "013"
  else if Ascii.eqb e "t" then "009"
  else e.

Fixpoint unquote_fuel (fuel : nat) (s : string) : string :=
  match fuel with
  | O => ""
  | S fuel' =>
      match s with
      | EmptyString => ""
      | String c s1 =>
          if Ascii.eqb c backslash then
            match s1 with
            | String e s2 =>
                if Ascii.eqb e "u" then
                  match hex4 s2 with
                  | Some r =>
                      let s3 := drop 4 s2 in
                      if is_surrogate r then
                        match utf16_decode r (getu4 s3) with
                        | Some d => utf8_encode d +:+ unquote_fuel fuel' (drop 6 s3)
                        | None => replacement +:+ unquote_fuel fuel' s3
                        end
                      else utf8_encode r +:+ unquote_fuel fuel' s3
                  | None => ""
                  end
                else String (unescape_char e) (unquote_fuel fuel' s2)
            | EmptyString => ""
            end
          else
            match utf8_size s with
            | O => replacement +:+ unquote_fuel fuel' s1
            | S n => String c (take n s1 +:+ unquote_fuel fuel' (drop n s1))
            end
      end
  end.

Definition unquote (raw : string) : string :=
  unquote_fuel (String.length raw) raw.

(** *** Parser

    Each call of the three functions is made on a text that has lost a byte
    since the call before the last one, so twice the length of the text is
    fuel enough. *)

Fixpoint parse_value (fuel : nat) (s : string) : option (value * string) :=
  match fuel with
  | O => None
  | S fuel' =>
      match skip_space s with
      | EmptyString => None
      | String c s1 =>
          if Ascii.eqb c "{" then
            match skip_space s1 with
            | String c' s2 =>
                if Ascii.eqb c' "}" then Some (JObject [], s2)
                else match parse_members fuel' (String c' s2) with
                     | Some (ms, r) => Some (JObject ms, r)
                     | None => None
                     end
            | EmptyString => None
            end
          else if Ascii.eqb c "[" then
            match skip_space s1 with
            | String c' s2 =>
                if Ascii.eqb c' "]" then Some (JArray [], s2)
                else match parse_elems fuel' (String c' s2) with
                     | Some (vs, r) => Some (JArray vs, r)
                     | None => None
                     end
            | EmptyString => None
            end
          else if Ascii.eqb c dquote then
            match scan_string s1 with
            | Some (raw, r) => Some (JString (unquote raw), r)
            | None => None
            end
          else if Ascii.eqb c "t" then
            option_map (pair (JBool true)) (expect "rue" s1)
          else if Ascii.eqb c "f" then
            option_map (pair (JBool false)) (expect "alse" s1)
          else if Ascii.eqb c "n" then
            option_map (pair JNull) (expect "ull" s1)
          else
            match scan_number (String c s1) with
            | Some (lit, r) => Some (JNumber lit, r)
            | None => None
            end
      end
  end

(** The elements of an array after [[], the first one at the head. *)
with parse_elems (fuel : nat) (s : string) : option (list value * string) :=
  match fuel with
  | O => None
  | S fuel' =>
      match parse_value fuel' s with
      | Some (v, r) =>
          match skip_space r with
          | String c r1 =>
              if Ascii.eqb c "," then
                match parse_elems fuel' r1 with
                | Some (vs, r2) => Some (v :: vs, r2)
                | None => None
                end
              else if Ascii.eqb c "]" then Some ([v], r1)
              else None
          | EmptyString => None
          end
      | None => None
      end
  end

(** The members of an object after [{], the first key at the head (after
    white space). *)
with parse_members (fuel : nat) (s : string)
  : option (list (string * value) * string) :=
  match fuel with
  | O => None
  | S fuel' =>
      match skip_space s with
      | String q s1 =>
          if Ascii.eqb q dquote then
            match scan_string s1 with
            | Some (raw, r) =>
                match skip_space r with
                | String c r1 =>
                    if Ascii.eqb c ":" then
                      match parse_value fuel' r1 with
                      | Some (v, r2) =>
                          match skip_space r2 with
                          | String d r3 =>
                              if Ascii.eqb d "," then
                                match parse_members fuel' r3 with
                                | Some (ms, r4) => Some ((unquote raw, v) :: ms, r4)
                                | None => None
                                end
                              else if Ascii.eqb d "}" then Some ([(unquote raw, v)], r3)
                              else None
                          | EmptyString => None
                          end
                      | None => None
                      end
                    else None
                | EmptyString => None
                end
            | None => None
            end
          else None
      | EmptyString => None
      end
  end.

(** [checkValid] and the reading of the one value of the text: only white
    space may follow it. *)
Definition parse (data : string) : result value :=
  match parse_value (2 * String.length data + 2) data with
  | Some (v, r) =>
      match skip_space r with
      | EmptyString => Ok v
      | String _ _ => Err SyntaxError
      end
  | None => Err SyntaxError
  end.

(** *** Decoding into Go values

    A decoder takes the JSON value and the Go value already held by the
    variable or field, as [Unmarshal] writes into what it is given.  A
    [null] leaves strings, numbers and structs as they are and resets
    slices, maps and pointers to nil.  A value of the wrong kind is an
    [UnmarshalTypeError]; Go goes on decoding after it and reports the first
    one, the model stops at the first one. *)

Definition kind_of (v : value) : string :=
  match v with
  | JNull => "null"
  | JBool _ => "bool"
  | JNumber _ => "number"
  | JString _ => "string"
  | JArray _ => "array"
  | JObject _ => "object"
  end.

Definition decoder (T : Type) := value -> T -> result T.

Definition decode_string (typ : string) : decoder string := fun v old =>
  match v with
  | JNull => Ok old
  | JString s => Ok s
  | _ => Err (UnmarshalTypeError (kind_of v) typ)
  end.

(** The value of a run of digits. *)
Fixpoint digits_value (s : string) (acc : Z) : option Z :=
  match s with
  | EmptyString => Some acc
  | String c s' =>
      if is_digit c
      then digits_value s' (10 * acc + Z.of_N (byte_of c - byte_of "0"))
      else None
  end.

(** [strconv.ParseInt(lit, 10, 64)] on the literal of a JSON number. *)
Definition parse_int64 (lit : string) : option Z :=
  let signed :=
    match lit with
    | String c s' =>
        if Ascii.eqb c "-"
        then match s' with
             | EmptyString => None
             | _ => option_map Z.opp (digits_value s' 0)
             end
        else digits_value lit 0
    | EmptyString => None
    end in
  match signed with
  | Some z => if (- 2 ^ 63 <=? z)%Z && (z <? 2 ^ 63)%Z then Some z else None
  | None => None
  end.

Definition decode_int : decoder Z := fun v old =>
  match v with
  | JNull => Ok old
  | JNumber lit =>
      match parse_int64 lit with
      | Some z => Ok z
      | None => Err (UnmarshalTypeError ("number " +:+ lit) "int")
      end
  | _ => Err (UnmarshalTypeError (kind_of v) "int")
  end.

(** A Go slice is nil ([None]) or holds a sequence, which may be empty. *)
Definition slice (A : Type) : Type := option (list A).

Definition slice_len {A} (s : slice A) : nat := length (default [] s).

Fixpoint decode_elems {A} (dec : decoder A) (zero : A) (vs : list value)
    (old : list A) : result (list A) :=
  match vs with
  | [] => Ok []
  | v :: vs' =>
      a ← dec v (hd zero old);
      r ← decode_elems dec zero vs' (tl old);
      Ok (a :: r)
  end.

Definition decode_slice {A} (typ : string) (dec : decoder A) (zero : A)
  : decoder (slice A) := fun v old =>
  match v with
  | JNull => Ok None
  | JArray vs => l ← decode_elems dec zero vs (default [] old); Ok (Some l)
  | _ => Err (UnmarshalTypeError (kind_of v) typ)
  end.

(** The name of a key up to case: ASCII letters in lower case, and the two
    letters that Unicode folds onto ASCII ones, U+017F onto s and U+212A
    onto k. *)
Definition lower (c : ascii) : ascii :=
  if in_range "A" "Z" c then chr (byte_of c + 32) else c.

Fixpoint fold_name (s : string) : string :=
  match s with
  | EmptyString => ""
  | String c1 s1 =>
      match s1 with
      | String c2 s2 =>
          if (byte_of c1 =? 197)%N && (byte_of c2 =? 191)%N
          then String "s" (fold_name s2)
          else
            match s2 with
            | String c3 s3 =>
                if (byte_of c1 =? 226)%N && (byte_of c2 =? 132)%N
                   && (byte_of c3 =? 170)%N
                then String "k" (fold_name s3)
                else String (lower c1) (fold_name s1)
            | EmptyString => String (lower c1) (fold_name s1)
            end
      | EmptyString => String (lower c1) ""
      end
  end.

(** The fields of a struct type: the name of each in JSON and how a value
    is decoded into it.  A key selects the field of that very name, or else
    the first field of that name up to case; a key that selects none is
    skipped. *)
Definition fields (T : Type) : Type := list (string * decoder T).

Definition find_field {T} (key : string) (fs : fields T) : option (decoder T) :=
  match List.find (fun f => String.eqb (fst f) key) fs with
  | Some f => Some (snd f)
  | None =>
      option_map snd
        (List.find (fun f => String.eqb (fold_name (fst f)) (fold_name key)) fs)
  end.

Fixpoint decode_members {T} (fs : fields T) (ms : list (string * value))
    (acc : T) : result T :=
  match ms with
  | [] => Ok acc
  | (k, v) :: ms' =>
      match find_field k fs with
      | Some dec => acc' ← dec v acc; decode_members fs ms' acc'
      | None => decode_members fs ms' acc
      end
  end.

Definition decode_struct {T} (typ : string) (fs : fields T) : decoder T :=
  fun v old =>
  match v with
  | JNull => Ok old
  | JObject ms => decode_members fs ms old
  | _ => Err (UnmarshalTypeError (kind_of v) typ)
  end.

(** A field decoder from the decoder of the field's type, its getter and
    its setter. *)
Definition into {T F} (get : T -> F) (set : F -> T -> T) (dec : decoder F)
  : decoder T := fun v old => x ← dec v (get old); Ok (set x old).

(** What an [interface{}] holds after decoding. *)
Inductive iface :=
| INil
| IBool (b : bool)
| IFloat64 (lit : string)
| IString (s : string)
| ISlice (l : list iface)
| IMap (m : gmap string iface).

Fixpoint valueInterface (v : value) : iface :=
  match v with
  | JNull => INil
  | JBool b => IBool b
  | JNumber lit => IFloat64 lit
  | JString s => IString s
  | JArray vs => ISlice (List.map valueInterface vs)
  | JObject ms =>
      IMap ((fix go (ms : list (string * value)) (m : gmap string iface) :=
               match ms with
               | [] => m
               | (k, x) :: ms' => go ms' (<[k := valueInterface x]> m)
               end) ms ∅)
  end.

(** [map[string]interface{}]: nil ([None]) or a map. *)
Definition decode_map (typ : string) : decoder (option (gmap string iface)) :=
  fun v old =>
  match v with
  | JNull => Ok None
  | JObject ms =>
      Ok (Some (fold_left (fun m kv => <[fst kv := valueInterface (snd kv)]> m)
                  ms (default ∅ old)))
  | _ => Err (UnmarshalTypeError (kind_of v) typ)
  end.

(** [json.Unmarshal(data, &x)] for a variable [x] that holds [old]. *)
Definition Unmarshal {T} (dec : decoder T) (data : string) (old : T) : result T :=
  v ← parse data; dec v old.

(** [json.Unmarshal(data, &p)] for a pointer [p] that is nil: [null] leaves
    it nil, any other value is decoded into a fresh [zero]. *)
Definition Unmarshal_ptr {T} (dec : decoder T) (zero : T) (data : string)
  : result (option T) :=
  v ← parse data;
  match v with
  | JNull => Ok None
  | _ => x ← dec v zero; Ok (Some x)
  end.

(** *** Encoding

    [Marshal] writes the fields of a struct in the order of their
    declaration.  A field tagged [omitempty] is left out when it is empty:
    an empty string, a nil or empty slice, a nil or empty map.  A struct is
    never empty in that sense: a field of struct type is always written. *)

Definition omit_string (key s : string) : list (string * value) :=
  match s with
  | EmptyString => []
  | _ => [(key, JString s)]
  end.

Definition omit_strings (key : string) (l : slice string)
  : list (string * value) :=
  match l with
  | Some (x :: xs) => [(key, JArray (List.map JString (x :: xs)))]
  | _ => []
  end.

Definition key_le (a b : string * value) : Prop := String.le (fst a) (fst b).

#[global] Instance key_le_dec a b : Decision (key_le a b).
Proof. unfold key_le. apply _. Defined.

(** A map is written with its keys in sorted order. *)
Fixpoint encode_iface (x : iface) : value :=
  match x with
  | INil => JNull
  | IBool b => JBool b
  | IFloat64 lit => JNumber lit
  | IString s => JString s
  | ISlice l => JArray (List.map encode_iface l)
  | IMap m =>
      JObject (merge_sort key_le
                 (map_fold (fun k y acc => (k, encode_iface y) :: acc) [] m))
  end.

Definition omit_map (key : string) (m : option (gmap string iface))
  : list (string * value) :=
  match m with
  | Some m => if decide (size m = 0) then [] else [(key, encode_iface (IMap m))]
  | None => []
  end.

(** The text of a string: the backslash, the quote, the control characters
    and (as [Marshal] escapes HTML) [<], [>] and [&] are escaped; a byte
    that is not part of valid UTF-8 is written as the escape of U+FFFD, and
    the runes U+2028 and U+2029 as their escapes.  The control characters
    other than line feed, carriage return and tab are written as a
    [u00XX] escape. *)
Definition lowerhex (n : N) : ascii :=
  match String.get (N.to_nat n) "0123456789abcdef" with
  | Some c => c
  | None => "0"%char
  end.

Definition escape_ascii (c : ascii) : string :=
  if Ascii.eqb c backslash || Ascii.eqb c dquote then String backslash (String c "")
  else if Ascii.eqb c "010" then String backslash "n"
  else if Ascii.eqb c "013" then String backslash "r"
  else if Ascii.eqb c "009" then String backslash "t"
  else if (byte_of c <? 32)%N || Ascii.eqb c "<" || Ascii.eqb c ">" || Ascii.eqb c "&"
  then String backslash
         ("u00" +:+ String (lowerhex (byte_of c / 16))
                      (String (lowerhex (byte_of c mod 16)) ""))
  else String c "".

Fixpoint quote_fuel (fuel : nat) (s : string) : string :=
  match fuel with
  | O => ""
  | S fuel' =>
      match s with
      | EmptyString => ""
      | String c s1 =>
          if (byte_of c <? 128)%N then escape_ascii c +:+ quote_fuel fuel' s1
          else
            match utf8_size s with
            | O => String backslash "ufffd" +:+ quote_fuel fuel' s1
            | S n =>
                let r := String c (take n s1) in
                (if String.eqb r (utf8_encode 8232) then String backslash "u2028"
                 else if String.eqb r (utf8_encode 8233) then String backslash "u2029"
                 else r) +:+ quote_fuel fuel' (drop n s1)
            end
      end
  end.

Definition quote (s : string) : string :=
  String dquote (quote_fuel (String.length s) s +:+ String dquote "").

Fixpoint join (sep : string) (l : list string) : string :=
  match l with
  | [] => ""
  | [x] => x
  | x :: l' => x +:+ sep +:+ join sep l'
  end.

Fixpoint render (v : value) : string :=
  match v with
  | JNull => "null"
  | JBool true => "true"
  | JBool false => "false"
  | JNumber lit => lit
  | JString s => quote s
  | JArray vs => "[" +:+ join "," (List.map render vs) +:+ "]"
  | JObject ms =>
      "{" +:+ join ","
                (List.map (fun kv => quote (fst kv) +:+ ":" +:+ render (snd kv)) ms)
          +:+ "}"
  end.

(** [json.Marshal(x)] for a type with encoder [enc]. *)
Definition Marshal {T} (enc : T -> value) (x : T) : string := render (enc x).

(** JSON texts in this file are written with ['] for the double quote. *)
Definition js (s : string) : string :=
  string_of_list_ascii
    (List.map (fun c => if Ascii.eqb c "'" then dquote else c)
       (list_ascii_of_string s)).

End Json.

Import Json.

(** ** The types of [custom_hostname.go]

    Each struct is a record in a module of its name, with its zero value,
    its fields as [Unmarshal] finds them from the tags, and its encoding as
    [Marshal] writes it from the tags. *)

(** [CustomHostnameStatus] is a string type with four named values. *)
Definition CustomHostnameStatus : Type := string.
Definition PENDING : CustomHostnameStatus := "pending".
Definition ACTIVE : CustomHostnameStatus := "active".
Definition MOVED : CustomHostnameStatus := "moved".
Definition REMOVED : CustomHostnameStatus := "removed".

Module CustomHostnameSSLSettings.
Record t := mk {
  HTTP2 : string;
  TLS13 : string;
  MinTLSVersion : string;
  Ciphers : slice string
}.
Definition zero : t := mk "" "" "" None.

Definition set_HTTP2 x o := mk x (TLS13 o) (MinTLSVersion o) (Ciphers o).
Definition set_TLS13 x o := mk (HTTP2 o) x (MinTLSVersion o) (Ciphers o).
Definition set_MinTLSVersion x o := mk (HTTP2 o) (TLS13 o) x (Ciphers o).
Definition set_Ciphers x o := mk (HTTP2 o) (TLS13 o) (MinTLSVersion o) x.

Definition fields : Json.fields t :=
  [ ("http2", into HTTP2 set_HTTP2 (decode_string "string"));
    ("tls_1_3", into TLS13 set_TLS13 (decode_string "string"));
    ("min_tls_version", into MinTLSVersion set_MinTLSVersion (decode_string "string"));
    ("ciphers", into Ciphers set_Ciphers
                  (decode_slice "[]string" (decode_string "string") "")) ].

Definition decode : decoder t :=
  decode_struct "cloudflare.CustomHostnameSSLSettings" fields.

Definition encode (x : t) : value :=
  JObject (omit_string "http2" (HTTP2 x)
           ++ omit_string "tls_1_3" (TLS13 x)
           ++ omit_string "min_tls_version" (MinTLSVersion x)
           ++ omit_strings "ciphers" (Ciphers x)).
End CustomHostnameSSLSettings.

Module CustomHostnameOwnershipVerification.
Record t := mk {
  Type_ : string;
  Name : string;
  Value : string
}.
Definition zero : t := mk "" "" "".

Definition set_Type x o := mk x (Name o) (Value o).
Definition set_Name x o := mk (Type_ o) x (Value o).
Definition set_Value x o := mk (Type_ o) (Name o) x.

Definition fields : Json.fields t :=
  [ ("type", into Type_ set_Type (decode_string "string"));
    ("name", into Name set_Name (decode_string "string"));
    ("value", into Value set_Value (decode_string "string")) ].

Definition decode : decoder t :=
  decode_struct "cloudflare.CustomHostnameOwnershipVerification" fields.

Definition encode (x : t) : value :=
  JObject (omit_string "type" (Type_ x)
           ++ omit_string "name" (Name x)
           ++ omit_string "value" (Value x)).
End CustomHostnameOwnershipVerification.

Module CustomHostnameSSL.
Record t := mk {
  Status : string;
  Method : string;
  Type_ : string;
  CnameTarget : string;
  CnameName : string;
  Settings : CustomHostnameSSLSettings.t
}.
Definition zero : t := mk "" "" "" "" "" CustomHostnameSSLSettings.zero.

Definition set_Status x o :=
  mk x (Method o) (Type_ o) (CnameTarget o) (CnameName o) (Settings o).
Definition set_Method x o :=
  mk (Status o) x (Type_ o) (CnameTarget o) (CnameName o) (Settings o).
Definition set_Type x o :=
  mk (Status o) (Method o) x (CnameTarget o) (CnameName o) (Settings o).
Definition set_CnameTarget x o :=
  mk (Status o) (Method o) (Type_ o) x (CnameName o) (Settings o).
Definition set_CnameName x o :=
  mk (Status o) (Method o) (Type_ o) (CnameTarget o) x (Settings o).
Definition set_Settings x o :=
  mk (Status o) (Method o) (Type_ o) (CnameTarget o) (CnameName o) x.

Definition fields : Json.fields t :=
  [ ("status", into Status set_Status (decode_string "string"));
    ("method", into Method set_Method (decode_string "string"));
    ("type", into Type_ set_Type (decode_string "string"));
    ("cname_target", into CnameTarget set_CnameTarget (decode_string "string"));
    ("cname", into CnameName set_CnameName (decode_string "string"));
    ("settings", into Settings set_Settings CustomHostnameSSLSettings.decode) ].

Definition decode : decoder t :=
  decode_struct "cloudflare.CustomHostnameSSL" fields.

(** [settings] is tagged [omitempty] and is a struct: it is written
    whatever it holds. *)
Definition encode (x : t) : value :=
  JObject (omit_string "status" (Status x)
           ++ omit_string "method" (Method x)
           ++ omit_string "type" (Type_ x)
           ++ omit_string "cname_target" (CnameTarget x)
           ++ omit_string "cname" (CnameName x)
           ++ [("settings", CustomHostnameSSLSettings.encode (Settings x))]).
End CustomHostnameSSL.

(** [CustomMetadata] is [map[string]interface{}]. *)
Definition CustomMetadata : Type := option (gmap string iface).

Module CustomHostname.
Record t := mk {
  ID : string;
  Hostname : string;
  CustomOriginServer : string;
  SSL : CustomHostnameSSL.t;
  CustomMetadata_ : CustomMetadata;
  Status : CustomHostnameStatus;
  VerificationErrors : slice string;
  OwnershipVerification : CustomHostnameOwnershipVerification.t
}.
Definition zero : t :=
  mk "" "" "" CustomHostnameSSL.zero None "" None
     CustomHostnameOwnershipVerification.zero.

Definition set_ID x o :=
  mk x (Hostname o) (CustomOriginServer o) (SSL o) (CustomMetadata_ o)
     (Status o) (VerificationErrors o) (OwnershipVerification o).
Definition set_Hostname x o :=
  mk (ID o) x (CustomOriginServer o) (SSL o) (CustomMetadata_ o)
     (Status o) (VerificationErrors o) (OwnershipVerification o).
Definition set_CustomOriginServer x o :=
  mk (ID o) (Hostname o) x (SSL o) (CustomMetadata_ o)
     (Status o) (VerificationErrors o) (OwnershipVerification o).
Definition set_SSL x o :=
  mk (ID o) (Hostname o) (CustomOriginServer o) x (CustomMetadata_ o)
     (Status o) (VerificationErrors o) (OwnershipVerification o).
Definition set_CustomMetadata x o :=
  mk (ID o) (Hostname o) (CustomOriginServer o) (SSL o) x
     (Status o) (VerificationErrors o) (OwnershipVerification o).
Definition set_Status x o :=
  mk (ID o) (Hostname o) (CustomOriginServer o) (SSL o) (CustomMetadata_ o)
     x (VerificationErrors o) (OwnershipVerification o).
Definition set_VerificationErrors x o :=
  mk (ID o) (Hostname o) (CustomOriginServer o) (SSL o) (CustomMetadata_ o)
     (Status o) x (OwnershipVerification o).
Definition set_OwnershipVerification x o :=
  mk (ID o) (Hostname o) (CustomOriginServer o) (SSL o) (CustomMetadata_ o)
     (Status o) (VerificationErrors o) x.

Definition fields : Json.fields t :=
  [ ("id", into ID set_ID (decode_string "string"));
    ("hostname", into Hostname set_Hostname (decode_string "string"));
    ("custom_origin_server",
     into CustomOriginServer set_CustomOriginServer (decode_string "string"));
    ("ssl", into SSL set_SSL CustomHostnameSSL.decode);
    ("custom_metadata",
     into CustomMetadata_ set_CustomMetadata (decode_map "cloudflare.CustomMetadata"));
    ("status",
     into Status set_Status (decode_string "cloudflare.CustomHostnameStatus"));
    ("verification_errors",
     into VerificationErrors set_VerificationErrors
       (decode_slice "[]string" (decode_string "string") ""));
    ("ownership_verification",
     into OwnershipVerification set_OwnershipVerification
       CustomHostnameOwnershipVerification.decode) ].

Definition decode : decoder t := decode_struct "cloudflare.CustomHostname" fields.

(** [ssl] and [ownership_verification] are tagged [omitempty] and are
    structs: they are written whatever they hold. *)
Definition encode (x : t) : value :=
  JObject (omit_string "id" (ID x)
           ++ omit_string "hostname" (Hostname x)
           ++ omit_string "custom_origin_server" (CustomOriginServer x)
           ++ [("ssl", CustomHostnameSSL.encode (SSL x))]
           ++ omit_map "custom_metadata" (CustomMetadata_ x)
           ++ omit_string "status" (Status x)
           ++ omit_strings "verification_errors" (VerificationErrors x)
           ++ [("ownership_verification",
                CustomHostnameOwnershipVerification.encode
                  (OwnershipVerification x))]).
End CustomHostname.

(** Modelled from the spec: [Response], the status block that every
    envelope embeds, is declared in another file of the package.  The spec
    calls it a generic API-response status block and names no member of it;
    none is modelled, and the keys of the block are skipped when an envelope
    is decoded. *)
Module Response.
Inductive t := mk.
Definition zero : t := mk.
End Response.

(** Modelled from the spec: [ResultInfo], the pagination metadata of a list
    response, is declared in another file of the package.  The spec lists
    its counters: total count, page, per-page, total pages.  The keys are
    the names of these counters in the style of the tags of this file. *)
Module ResultInfo.
Record t := mk {
  Page : Z;
  PerPage : Z;
  TotalPages : Z;
  Total : Z
}.
Definition zero : t := mk 0 0 0 0.

Definition set_Page x o := mk x (PerPage o) (TotalPages o) (Total o).
Definition set_PerPage x o := mk (Page o) x (TotalPages o) (Total o).
Definition set_TotalPages x o := mk (Page o) (PerPage o) x (Total o).
Definition set_Total x o := mk (Page o) (PerPage o) (TotalPages o) x.

Definition fields : Json.fields t :=
  [ ("page", into Page set_Page decode_int);
    ("per_page", into PerPage set_PerPage decode_int);
    ("total_pages", into TotalPages set_TotalPages decode_int);
    ("total_count", into Total set_Total decode_int) ].

Definition decode : decoder t := decode_struct "cloudflare.ResultInfo" fields.
End ResultInfo.

Module CustomHostnameResponse.
Record t := mk {
  Result : CustomHostname.t;
  Response_ : Response.t
}.
Definition zero : t := mk CustomHostname.zero Response.zero.

Definition set_Result x o := mk x (Response_ o).

Definition fields : Json.fields t :=
  [ ("result", into Result set_Result CustomHostname.decode) ].

Definition decode : decoder t :=
  decode_struct "cloudflare.CustomHostnameResponse" fields.
End CustomHostnameResponse.

Module CustomHostnameListResponse.
Record t := mk {
  Result : slice CustomHostname.t;
  Response_ : Response.t;
  ResultInfo_ : ResultInfo.t
}.
Definition zero : t := mk None Response.zero ResultInfo.zero.

Definition set_Result x o := mk x (Response_ o) (ResultInfo_ o).
Definition set_ResultInfo x o := mk (Result o) (Response_ o) x.

Definition fields : Json.fields t :=
  [ ("result",
     into Result set_Result
       (decode_slice "[]cloudflare.CustomHostname" CustomHostname.decode
          CustomHostname.zero));
    ("result_info", into ResultInfo_ set_ResultInfo ResultInfo.decode) ].

Definition decode : decoder t :=
  decode_struct "cloudflare.CustomHostnameListResponse" fields.
End CustomHostnameListResponse.

Module CustomHostnameFallbackOrigin.
Record t := mk {
  Origin : string;
  Status : string;
  Errors : slice string
}.
Definition zero : t := mk "" "" None.

Definition set_Origin x o := mk x (Status o) (Errors o).
Definition set_Status x o := mk (Origin o) x (Errors o).
Definition set_Errors x o := mk (Origin o) (Status o) x.

Definition fields : Json.fields t :=
  [ ("origin", into Origin set_Origin (decode_string "string"));
    ("status", into Status set_Status (decode_string "string"));
    ("errors", into Errors set_Errors
                 (decode_slice "[]string" (decode_string "string") "")) ].

Definition decode : decoder t :=
  decode_struct "cloudflare.CustomHostnameFallbackOrigin" fields.

Definition encode (x : t) : value :=
  JObject (omit_string "origin" (Origin x)
           ++ omit_string "status" (Status x)
           ++ omit_strings "errors" (Errors x)).
End CustomHostnameFallbackOrigin.

Module CustomHostnameFallbackOriginResponse.
Record t := mk {
  Result : CustomHostnameFallbackOrigin.t;
  Response_ : Response.t
}.
Definition zero : t := mk CustomHostnameFallbackOrigin.zero Response.zero.

Definition set_Result x o := mk x (Response_ o).

Definition fields : Json.fields t :=
  [ ("result", into Result set_Result CustomHostnameFallbackOrigin.decode) ].

Definition decode : decoder t :=
  decode_struct "cloudflare.CustomHostnameFallbackOriginResponse" fields.
End CustomHostnameFallbackOriginResponse.

(** ** Errors

    An [error] is made by the dispatcher ([Foreign]), by [json.Unmarshal],
    by [errors.New] or by [errors.Wrap], which keeps its cause.  A nil error
    is [None]. *)

(** Modelled from the spec: the constants [errMakeRequestError] and
    [errUnmarshalError] are declared in another file of the package; the
    spec says that the message of a decode failure is distinct from the one
    of a dispatch failure.  [Text] is a message written in place. *)
Inductive message :=
| errMakeRequestError
| errUnmarshalError
| Text (s : string).

Inductive error :=
| Foreign (description : string)
| JsonError (e : json_error)
| New (msg : string)
| Wrap (cause : error) (msg : message).

(** ** The dispatcher and the programs over it

    [api.makeRequest(method, uri, params)] is the one effect of the file.
    An operation is a program: it returns, or it calls the dispatcher and
    goes on with the reply, the bytes and the error. *)

(** The [params interface{}] of a call: nil or one of the payloads. *)
Inductive Params :=
| nil_params
| SSL_params (ssl : CustomHostnameSSL.t)
| CustomHostname_params (ch : CustomHostname.t)
| FallbackOrigin_params (chfo : CustomHostnameFallbackOrigin.t).

Definition Reply : Type := string * option error.

Inductive Prog (A : Type) : Type :=
| Return (a : A)
| MakeRequest (method uri : string) (params : Params) (k : Reply -> Prog A).
Arguments Return {A} a.
Arguments MakeRequest {A} method uri params k.

#[global] Instance Prog_ret : MRet Prog := fun _ a => Return a.

#[global] Instance Prog_bind : MBind Prog := fun A B f =>
  fix go (p : Prog A) : Prog B :=
    match p with
    | Return a => f a
    | MakeRequest m u ps k => MakeRequest m u ps (fun r => go (k r))
    end.

(** A dispatcher answers a call from the state of the world [W] (the
    service, the network) and changes it. *)
Definition Dispatcher (W : Type) : Type :=
  string -> string -> Params -> W -> Reply * W.

Record Call := mkCall {
  call_method : string;
  call_uri : string;
  call_params : Params
}.

(** [run d p w log]: the result of the program, the world after it and the
    calls it made, after those of [log], in order. *)
Fixpoint run {W A} (d : Dispatcher W) (p : Prog A) (w : W) (log : list Call)
  : A * W * list Call :=
  match p with
  | Return a => (a, w, log)
  | MakeRequest m u ps k =>
      let '(r, w') := d m u ps w in
      run d (k r) w' (log ++ [mkCall m u ps])
  end.

Definition exec {W A} (d : Dispatcher W) (p : Prog A) (w : W)
  : A * W * list Call := run d p w [].

(** ** The operations of [custom_hostname.go] *)

Module API.

Definition makeRequest (method uri : string) (params : Params) : Prog Reply :=
  MakeRequest method uri params Return.

Definition UpdateCustomHostnameSSL (zoneID customHostnameID : string)
    (ssl : CustomHostnameSSL.t)
  : Prog (option CustomHostnameResponse.t * option error) :=
  let uri := "/zones/" +:+ zoneID +:+ "/custom_hostnames/" +:+ customHostnameID in
  '(res, err) ← makeRequest "PATCH" uri (SSL_params ssl);
  match err with
  | Some err => mret (None, Some (Wrap err errMakeRequestError))
  | None =>
      match Unmarshal_ptr CustomHostnameResponse.decode
              CustomHostnameResponse.zero res with
      | Err e => mret (None, Some (Wrap (JsonError e) errUnmarshalError))
      | Ok response => mret (response, None)
      end
  end.

Definition DeleteCustomHostname (zoneID customHostnameID : string)
  : Prog (option error) :=
  let uri := "/zones/" +:+ zoneID +:+ "/custom_hostnames/" +:+ customHostnameID in
  '(res, err) ← makeRequest "DELETE" uri nil_params;
  match err with
  | Some err => mret (Some (Wrap err errMakeRequestError))
  | None =>
      match Unmarshal_ptr CustomHostnameResponse.decode
              CustomHostnameResponse.zero res with
      | Err e => mret (Some (Wrap (JsonError e) errUnmarshalError))
      | Ok _ => mret None
      end
  end.

Definition CreateCustomHostname (zoneID : string) (ch : CustomHostname.t)
  : Prog (option CustomHostnameResponse.t * option error) :=
  let uri := "/zones/" +:+ zoneID +:+ "/custom_hostnames" in
  '(res, err) ← makeRequest "POST" uri (CustomHostname_params ch);
  match err with
  | Some err => mret (None, Some (Wrap err errMakeRequestError))
  | None =>
      match Unmarshal_ptr CustomHostnameResponse.decode
              CustomHostnameResponse.zero res with
      | Err e => mret (None, Some (Wrap (JsonError e) errUnmarshalError))
      | Ok response => mret (response, None)
      end
  end.

(** The query string of the list operation. *)
Definition list_query (page : Z) (filter : CustomHostname.t) : string :=
  let v : Url.Values := ∅ in
  let v := Url.Set_ "per_page" "50" v in
  let v := Url.Set_ "page" (Url.Itoa page) v in
  let v := if String.eqb (CustomHostname.Hostname filter) ""
           then v
           else Url.Set_ "hostname" (CustomHostname.Hostname filter) v in
  "?" +:+ Url.Encode v.

Definition CustomHostnames (zoneID : string) (page : Z) (filter : CustomHostname.t)
  : Prog (slice CustomHostname.t * ResultInfo.t * option error) :=
  let query := list_query page filter in
  let uri := "/zones/" +:+ zoneID +:+ "/custom_hostnames" +:+ query in
  '(res, err) ← makeRequest "GET" uri nil_params;
  match err with
  | Some err => mret (Some [], ResultInfo.zero, Some (Wrap err errMakeRequestError))
  | None =>
      match Unmarshal CustomHostnameListResponse.decode res
              CustomHostnameListResponse.zero with
      | Err e =>
          mret (Some [], ResultInfo.zero,
                Some (Wrap (JsonError e) errMakeRequestError))
      | Ok customHostnameListResponse =>
          mret (CustomHostnameListResponse.Result customHostnameListResponse,
                CustomHostnameListResponse.ResultInfo_ customHostnameListResponse,
                None)
      end
  end.

Definition CustomHostname (zoneID customHostnameID : string)
  : Prog (CustomHostname.t * option error) :=
  let uri := "/zones/" +:+ zoneID +:+ "/custom_hostnames/" +:+ customHostnameID in
  '(res, err) ← makeRequest "GET" uri nil_params;
  match err with
  | Some err => mret (CustomHostname.zero, Some (Wrap err errMakeRequestError))
  | None =>
      match Unmarshal CustomHostnameResponse.decode res
              CustomHostnameResponse.zero with
      | Err e => mret (CustomHostname.zero, Some (Wrap (JsonError e) errUnmarshalError))
      | Ok response => mret (CustomHostnameResponse.Result response, None)
      end
  end.

(** The loop of [CustomHostnameIDByName] over the page. *)
Fixpoint scan_hostnames (hostname : string) (customHostnames : list CustomHostname.t)
  : string * option error :=
  match customHostnames with
  | [] => ("", Some (New "CustomHostname could not be found"))
  | ch :: rest =>
      if String.eqb (CustomHostname.Hostname ch) hostname
      then (CustomHostname.ID ch, None)
      else scan_hostnames hostname rest
  end.

Definition CustomHostnameIDByName (zoneID hostname : string)
  : Prog (string * option error) :=
  '(customHostnames, _, err) ←
    CustomHostnames zoneID 1 (CustomHostname.set_Hostname hostname CustomHostname.zero);
  match err with
  | Some err => mret ("", Some (Wrap err (Text "CustomHostnames command failed")))
  | None => mret (scan_hostnames hostname (default [] customHostnames))
  end.

Definition UpdateCustomHostnameFallbackOrigin (zoneID : string)
    (chfo : CustomHostnameFallbackOrigin.t)
  : Prog (option CustomHostnameFallbackOriginResponse.t * option error) :=
  let uri := "/zones/" +:+ zoneID +:+ "/custom_hostnames/fallback_origin" in
  '(res, err) ← makeRequest "PUT" uri (FallbackOrigin_params chfo);
  match err with
  | Some err => mret (None, Some (Wrap err errMakeRequestError))
  | None =>
      match Unmarshal_ptr CustomHostnameFallbackOriginResponse.decode
              CustomHostnameFallbackOriginResponse.zero res with
      | Err e => mret (None, Some (Wrap (JsonError e) errUnmarshalError))
      | Ok response => mret (response, None)
      end
  end.

Definition CustomHostnameFallbackOrigin (zoneID : string)
  : Prog (CustomHostnameFallbackOrigin.t * option error) :=
  let uri := "/zones/" +:+ zoneID +:+ "/custom_hostnames/fallback_origin" in
  '(res, err) ← makeRequest "GET" uri nil_params;
  match err with
  | Some err =>
      mret (CustomHostnameFallbackOrigin.zero, Some (Wrap err errMakeRequestError))
  | None =>
      match Unmarshal CustomHostnameFallbackOriginResponse.decode res
              CustomHostnameFallbackOriginResponse.zero with
      | Err e =>
          mret (CustomHostnameFallbackOrigin.zero,
                Some (Wrap (JsonError e) errUnmarshalError))
      | Ok response => mret (CustomHostnameFallbackOriginResponse.Result response, None)
      end
  end.

End API.

(** A dispatcher that answers every call with the same bytes, and one that
    fails every call with the same error. *)
Definition answer (body : string) : Dispatcher unit :=
  fun _ _ _ w => ((body, None), w).

Definition failing (e : error) : Dispatcher unit :=
  fun _ _ _ w => (("", Some e), w).

(** ** Sample replies *)

(** The body of a list response with 51 entries. *)
Definition body_of_51 : string :=
  js ("{'result':[" +:+ join "," (repeat "{}" 51) +:+ "]}").

(** An entry that holds an ID and a hostname. *)
Definition entry (id hostname : string) : CustomHostname.t :=
  CustomHostname.set_ID id (CustomHostname.set_Hostname hostname CustomHostname.zero).

(** A page of three entries, two of them of one hostname. *)
Definition sample_page : string :=
  js ("{'success':true,'result':["
      +:+ "{'id':'0d89c70d','hostname':'a.example.com'},"
      +:+ "{'id':'c2e8','hostname':'app.example.com'},"
      +:+ "{'id':'f1aa','hostname':'app.example.com'}],"
      +:+ "'result_info':{'page':1,'per_page':50,'total_count':3}}").

(** The envelope of one custom hostname. *)
Definition sample_envelope : string :=
  js "{'success':true,'result':{'id':'0d89c70d','ssl':{'method':'http'}}}".

(** A dispatcher that answers the call on one URI with one body and every
    other call with another. *)
Definition answer_at (uri body other : string) : Dispatcher unit :=
  fun _ u _ w => ((if String.eqb u uri then body else other, None), w).

(** The envelope of a fallback origin. *)
Definition sample_fallback : string :=
  js "{'success':true,'result':{'origin':'fallback.example.com','status':'active'}}".

(** A page that holds one entry without hostname. *)
Definition sample_page_unnamed : string :=
  js "{'result':[{'id':'c2e8','hostname':'app.example.com'},{'id':'77aa'}]}".

(** ** Texts and values for the round trips

    A byte is ASCII when it is below 128; a text, when its bytes are. *)
Definition is_ascii (c : ascii) : bool := (byte_of c <? 128)%N.
Definition ascii_string (s : string) : bool := all_chars is_ascii s.

(** The escapes of the bytes of a text, as [quote] writes an ASCII text. *)
Fixpoint escape_text (s : string) : string :=
  match s with
  | EmptyString => ""
  | String c s' => escape_ascii c +:+ escape_text s'
  end.

(** A JSON value whose keys and strings are ASCII and that holds no number. *)
Fixpoint ascii_value (v : value) : bool :=
  match v with
  | JNull => true
  | JBool _ => true
  | JNumber _ => false
  | JString s => ascii_string s
  | JArray vs => forallb ascii_value vs
  | JObject ms => forallb (fun kv => ascii_string (fst kv) && ascii_value (snd kv)) ms
  end.

(** The fuel that [parse_value] needs to read a rendered value back: one
    for each value, element and member on the way down. *)
Definition need_list (need : value -> nat) : list value -> nat :=
  fix go vs :=
    match vs with
    | [] => 0
    | v :: vs' => S (Nat.max (need v) (go vs'))
    end.

Definition need_members (need : value -> nat) : list (string * value) -> nat :=
  fix go ms :=
    match ms with
    | [] => 0
    | kv :: ms' => S (Nat.max (need (snd kv)) (go ms'))
    end.

Fixpoint need (v : value) : nat :=
  match v with
  | JArray vs => S (need_list need vs)
  | JObject ms => S (need_members need ms)
  | _ => 1
  end.

(** A member of an object, as [render] writes it. *)
Definition render_member (kv : string * value) : string :=
  quote (fst kv) +:+ ":" +:+ render (snd kv).

(** The first byte of a rendered value is neither white space nor a closing
    bracket. *)
Definition opens (c : ascii) : bool :=
  negb (is_space c) && negb (Ascii.eqb c "]") && negb (Ascii.eqb c "}").

(** The texts of the payloads are ASCII. *)
Definition ascii_slice (l : slice string) : bool :=
  forallb ascii_string (default [] l).

(** What is read back of a slice that [omitempty] left out when empty: the
    nil slice. *)
Definition norm_slice {A} (s : slice A) : slice A :=
  match s with
  | Some (x :: l) => Some (x :: l)
  | _ => None
  end.

Definition ascii_SSLSettings (x : CustomHostnameSSLSettings.t) : bool :=
  ascii_string (CustomHostnameSSLSettings.HTTP2 x)
  && ascii_string (CustomHostnameSSLSettings.TLS13 x)
  && ascii_string (CustomHostnameSSLSettings.MinTLSVersion x)
  && ascii_slice (CustomHostnameSSLSettings.Ciphers x).

Definition ascii_SSL (x : CustomHostnameSSL.t) : bool :=
  ascii_string (CustomHostnameSSL.Status x)
  && ascii_string (CustomHostnameSSL.Method x)
  && ascii_string (CustomHostnameSSL.Type_ x)
  && ascii_string (CustomHostnameSSL.CnameTarget x)
  && ascii_string (CustomHostnameSSL.CnameName x)
  && ascii_SSLSettings (CustomHostnameSSL.Settings x).

Definition ascii_FallbackOrigin (x : CustomHostnameFallbackOrigin.t) : bool :=
  ascii_string (CustomHostnameFallbackOrigin.Origin x)
  && ascii_string (CustomHostnameFallbackOrigin.Status x)
  && ascii_slice (CustomHostnameFallbackOrigin.Errors x).

(** What is read back of a payload: the payload, its empty slices nil. *)
Definition norm_SSLSettings (x : CustomHostnameSSLSettings.t) :=
  CustomHostnameSSLSettings.set_Ciphers
    (norm_slice (CustomHostnameSSLSettings.Ciphers x)) x.

Definition norm_SSL (x : CustomHostnameSSL.t) :=
  CustomHostnameSSL.set_Settings (norm_SSLSettings (CustomHostnameSSL.Settings x)) x.

Definition norm_FallbackOrigin (x : CustomHostnameFallbackOrigin.t) :=
  CustomHostnameFallbackOrigin.set_Errors
    (norm_slice (CustomHostnameFallbackOrigin.Errors x)) x.

Definition ascii_OwnershipVerification (x : CustomHostnameOwnershipVerification.t) : bool :=
  ascii_string (CustomHostnameOwnershipVerification.Type_ x)
  && ascii_string (CustomHostnameOwnershipVerification.Name x)
  && ascii_string (CustomHostnameOwnershipVerification.Value x).

Definition ascii_CustomHostname (x : CustomHostname.t) : bool :=
  ascii_string (CustomHostname.ID x)
  && ascii_string (CustomHostname.Hostname x)
  && ascii_string (CustomHostname.CustomOriginServer x)
  && ascii_SSL (CustomHostname.SSL x)
  && ascii_string (CustomHostname.Status x)
  && ascii_slice (CustomHostname.VerificationErrors x)
  && ascii_OwnershipVerification (CustomHostname.OwnershipVerification x).

Definition norm_CustomHostname (x : CustomHostname.t) : CustomHostname.t :=
  CustomHostname.set_SSL (norm_SSL (CustomHostname.SSL x))
    (CustomHostname.set_VerificationErrors
       (norm_slice (CustomHostname.VerificationErrors x)) x).

(** Payloads of ASCII texts. *)
Definition sample_ssl : CustomHostnameSSL.t :=
  CustomHostnameSSL.mk "" "http" "dv" "" ""
    (CustomHostnameSSLSettings.mk "on" "" "1.2"
       (Some ["ECDHE-RSA-AES128-GCM-SHA256"; "AES128-SHA"])).

Definition sample_origin : CustomHostnameFallbackOrigin.t :=
  CustomHostnameFallbackOrigin.mk "fallback.example.com" "" None.

Definition sample_hostname : CustomHostname.t :=
  CustomHostname.mk "" "app.example.com" "origin.example.com" sample_ssl None ""
    None CustomHostnameOwnershipVerification.zero.

(** * Properties *)

(** ** Strings *)

#[local] Arguments String.append : simpl nomatch.

Lemma append_assoc (a b c : string) : (a +:+ b) +:+ c = a +:+ (b +:+ c).
Proof. induction a as [|x a IH]; cbn; [reflexivity | now rewrite IH]. Qed.

Lemma append_nil_r (a : string) : a +:+ "" = a.
Proof. induction a as [|x a IH]; cbn; [reflexivity | now rewrite IH]. Qed.

Lemma append_cons (x : ascii) (a b : string) :
  String x a +:+ b = String x (a +:+ b).
Proof. reflexivity. Qed.

Lemma all_chars_app p a b :
  all_chars p (a +:+ b) = all_chars p a && all_chars p b.
Proof.
  induction a as [|x a IH]; cbn; [reflexivity|].
  now rewrite IH, andb_assoc.
Qed.

Lemma all_chars_weaken (p q : ascii -> bool) s :
  (forall c, p c = true -> q c = true) ->
  all_chars p s = true -> all_chars q s = true.
Proof.
  intros Hpq. induction s as [|x s IH]; cbn; [reflexivity|].
  intros [Hx Hs]%andb_true_iff. rewrite (Hpq _ Hx). now apply IH.
Qed.

Lemma all_bytes_spec p : all_bytes p = true -> forall c, p c = true.
Proof.
  intros H c. unfold all_bytes in H. rewrite forallb_forall in H.
  rewrite <- (ascii_nat_embedding c). apply H.
  apply in_seq. pose proof (nat_ascii_bounded c). lia.
Qed.

Module UrlFacts.
Import Url.

Lemma escape_byte_chars c : all_chars escaped_char (escape_byte c) = true.
Proof.
  revert c. apply all_bytes_spec. vm_compute. reflexivity.
Qed.

Lemma QueryEscape_chars s : all_chars escaped_char (QueryEscape s) = true.
Proof.
  induction s as [|c s IH]; cbn; [reflexivity|].
  now rewrite all_chars_app, escape_byte_chars, IH.
Qed.

(** A text of kept bytes is its own escape. *)
Lemma QueryEscape_kept s :
  all_chars (fun c => negb (shouldEscape c)) s = true -> QueryEscape s = s.
Proof.
  induction s as [|c s IH]; cbn; [reflexivity|].
  intros [Hc Hs]%andb_true_iff. rewrite (IH Hs).
  unfold escape_byte. apply negb_true_iff in Hc. now rewrite Hc.
Qed.

(** [QueryUnescape] undoes [QueryEscape]. *)
Lemma unescape_escape_byte c r :
  QueryUnescape (escape_byte c +:+ r) = option_map (String c) (QueryUnescape r).
Proof.
  revert c.
  assert (H : forall c,
    (if shouldEscape c then
       if Ascii.eqb c " " then true
       else match unhex (hex_digit (byte_of c / 16)),
                  unhex (hex_digit (byte_of c mod 16)) with
            | Some a, Some b => Ascii.eqb (ascii_of_N (a * 16 + b)) c
            | _, _ => false
            end
     else negb (Ascii.eqb c "%") && negb (Ascii.eqb c "+")) = true).
  { apply all_bytes_spec. vm_compute. reflexivity. }
  intros c. specialize (H c). unfold escape_byte.
  destruct (shouldEscape c).
  - destruct (Ascii.eqb c " ") eqn:Hsp.
    + apply Ascii.eqb_eq in Hsp. subst c. reflexivity.
    + cbn.
      destruct (unhex (hex_digit (byte_of c / 16))) as [a|]; [|discriminate].
      destruct (unhex (hex_digit (byte_of c mod 16))) as [b|]; [|discriminate].
      apply Ascii.eqb_eq in H. rewrite H.
      destruct (QueryUnescape r); reflexivity.
  - apply andb_true_iff in H as [H1 H2].
    apply negb_true_iff in H1, H2.
    apply Ascii.eqb_neq in H1, H2. cbn.
    destruct c as [[] [] [] [] [] [] [] []]; try reflexivity; congruence.
Qed.

Lemma QueryUnescape_QueryEscape s : QueryUnescape (QueryEscape s) = Some s.
Proof.
  induction s as [|c s IH]; cbn; [reflexivity|].
  now rewrite unescape_escape_byte, IH.
Qed.

(** [Itoa] writes a decimal numeral: read back, it is the number. *)
Lemma Itoa_decimal n :
  option_map Z.of_int (NilZero.int_of_string (Itoa n)) = Some n.
Proof.
  unfold Itoa. rewrite NilZero.isi.
  - cbn. now rewrite DecimalZ.of_to.
  - destruct n as [|p|p]; cbn; try discriminate.
    intros [= H]. now apply DecimalPos.Unsigned.to_uint_nonnil in H.
  - destruct n as [|p|p]; cbn; try discriminate.
    intros [= H]. now apply DecimalPos.Unsigned.to_uint_nonnil in H.
Qed.

Lemma string_of_uint_kept u :
  all_chars kept_char (NilEmpty.string_of_uint u) = true.
Proof. induction u; cbn; auto. Qed.

Lemma Itoa_kept n : all_chars kept_char (Itoa n) = true.
Proof.
  unfold Itoa, NilZero.string_of_int, NilZero.string_of_uint.
  destruct (Z.to_int n) as [u|u]; destruct u; cbn;
    try reflexivity; apply string_of_uint_kept.
Qed.

Lemma QueryEscape_Itoa n : QueryEscape (Itoa n) = Itoa n.
Proof. apply QueryEscape_kept, Itoa_kept. Qed.

(** The query of the list operation, as text. *)
Lemma Encode_list_query (page : Z) (filter : CustomHostname.t) :
  API.list_query page filter =
  "?" +:+ (if String.eqb (CustomHostname.Hostname filter) "" then ""
           else "hostname=" +:+ QueryEscape (CustomHostname.Hostname filter) +:+ "&")
      +:+ "page=" +:+ Itoa page +:+ "&per_page=50".
Proof.
  assert (E1 : QueryEscape "page" = "page") by (vm_compute; reflexivity).
  assert (E2 : QueryEscape "per_page" = "per_page") by (vm_compute; reflexivity).
  assert (E3 : QueryEscape "hostname" = "hostname") by (vm_compute; reflexivity).
  assert (E4 : QueryEscape "50" = "50") by (vm_compute; reflexivity).
  unfold API.list_query, Encode, Set_.
  pose proof (QueryEscape_Itoa page) as Hp. revert Hp.
  generalize (Itoa page) as p. intros p Hp.
  generalize (CustomHostname.Hostname filter) as h. intros h.
  destruct (String.eqb h "") eqn:Hh.
  - replace (sorted_keys _) with ["page"; "per_page"] by (vm_compute; reflexivity).
    cbn [encode_keys].
    replace (_ !! "page") with (Some [p]) by (vm_compute; reflexivity).
    replace (_ !! "per_page") with (Some ["50"]) by (vm_compute; reflexivity).
    cbn [default from_option id encode_values]. rewrite E1, E2, E4, Hp. cbn.
    now rewrite ?append_assoc.
  - replace (sorted_keys _) with ["hostname"; "page"; "per_page"]
      by (vm_compute; reflexivity).
    cbn [encode_keys].
    replace (_ !! "hostname") with (Some [h]) by (vm_compute; reflexivity).
    replace (_ !! "page") with (Some [p]) by (vm_compute; reflexivity).
    replace (_ !! "per_page") with (Some ["50"]) by (vm_compute; reflexivity).
    cbn [default from_option id encode_values]. rewrite E1, E2, E3, E4, Hp. cbn.
    now rewrite ?append_assoc.
Qed.

Lemma split_at_sep sep a r :
  no_char sep a = true -> split_at sep (a +:+ String sep r) = (a, Some r).
Proof.
  induction a as [|x a IH]; cbn.
  - now rewrite Ascii.eqb_refl.
  - intros [Hx Ha]%andb_true_iff. apply negb_true_iff in Hx.
    now rewrite Hx, (IH Ha).
Qed.

Lemma split_at_none sep a : no_char sep a = true -> split_at sep a = (a, None).
Proof.
  induction a as [|x a IH]; cbn; [reflexivity|].
  intros [Hx Ha]%andb_true_iff. apply negb_true_iff in Hx.
  now rewrite Hx, (IH Ha).
Qed.

Lemma escaped_no_char sep s :
  escaped_char sep = false -> all_chars escaped_char s = true ->
  no_char sep s = true.
Proof.
  intros Hsep. apply all_chars_weaken. intros c Hc.
  apply negb_true_iff, Ascii.eqb_neq. intros ->. congruence.
Qed.

Lemma kept_escaped s :
  all_chars kept_char s = true -> all_chars escaped_char s = true.
Proof.
  apply all_chars_weaken. intros c Hc. unfold escaped_char.
  unfold kept_char in Hc. now rewrite Hc.
Qed.

Lemma pieces_cons fuel sep a r :
  no_char sep a = true ->
  pieces (S fuel) sep (a +:+ String sep r) = a :: pieces fuel sep r.
Proof. intros Ha. cbn [pieces]. now rewrite split_at_sep. Qed.

Lemma pieces_last fuel sep a :
  no_char sep a = true -> pieces (S fuel) sep a = [a].
Proof. intros Ha. cbn [pieces]. now rewrite split_at_none. Qed.

Lemma no_amp_escaped s : no_char "&" (QueryEscape s) = true.
Proof. apply escaped_no_char; [reflexivity | apply QueryEscape_chars]. Qed.

Lemma no_amp_Itoa n : no_char "&" (Itoa n) = true.
Proof.
  apply escaped_no_char; [reflexivity | apply kept_escaped, Itoa_kept].
Qed.

(** The parameters that a reader finds in the query of the list
    operation. *)
Lemma params_list_query (page : Z) (filter : CustomHostname.t) :
  let h := CustomHostname.Hostname filter in
  exists q,
    API.list_query page filter = "?" +:+ q /\
    params q =
      (if String.eqb h "" then [] else [("hostname", QueryEscape h)])
      ++ [("page", Itoa page); ("per_page", "50")].
Proof.
  intros h. rewrite Encode_list_query. fold h.
  eexists. split; [reflexivity|].
  pose proof (no_amp_Itoa page) as Hp. revert Hp.
  generalize (Itoa page) as p. intros p Hp.
  pose proof (no_amp_escaped h) as He. revert He.
  generalize (QueryEscape h) as e. intros e He.
  assert (Hpage : no_char "&" ("page=" +:+ p) = true) by exact Hp.
  assert (Hhost : no_char "&" ("hostname=" +:+ e) = true) by exact He.
  destruct (String.eqb h "").
  - change ("" +:+ "page=" +:+ p +:+ "&per_page=50")
      with (String "p" ("age=" +:+ p +:+ "&per_page=50")).
    unfold params. cbn [String.length].
    change (String "p" ("age=" +:+ p +:+ "&per_page=50"))
      with ("page=" +:+ p +:+ String "&" "per_page=50").
    rewrite <- (append_assoc "page=" p), (pieces_cons _ _ _ _ Hpage).
    destruct (String.length _); reflexivity.
  - change (("hostname=" +:+ e +:+ "&") +:+ "page=" +:+ p +:+ "&per_page=50")
      with (String "h" (("ostname=" +:+ e +:+ "&") +:+ "page=" +:+ p +:+ "&per_page=50")).
    unfold params. cbn [String.length].
    change (String "h" (("ostname=" +:+ e +:+ "&") +:+ "page=" +:+ p +:+ "&per_page=50"))
      with (("hostname=" +:+ e +:+ String "&" "") +:+ "page=" +:+ p +:+ String "&" "per_page=50").
    rewrite (append_assoc "hostname=").
    rewrite (append_assoc e), <- (append_assoc "hostname=" e).
    change (String "&" "" +:+ "page=" +:+ p +:+ String "&" "per_page=50")
      with (String "&" (("page=" +:+ p) +:+ String "&" "per_page=50")).
    rewrite (pieces_cons _ _ _ _ Hhost).
    rewrite (pieces_cons _ _ _ _ Hpage). reflexivity.
Qed.

End UrlFacts.

(** ** Running a program *)

Lemma run_bind {W A B} (d : Dispatcher W) (p : Prog A) (k : A -> Prog B) w log :
  run d (p ≫= k) w log =
  let '(a, w1, log1) := run d p w log in run d (k a) w1 log1.
Proof.
  revert w log. induction p as [a | m u ps f IH]; intros w log.
  - reflexivity.
  - cbn. destruct (d m u ps w) as [r w1]. apply IH.
Qed.

Lemma exec_bind {W A B} (d : Dispatcher W) (p : Prog A) (k : A -> Prog B) w :
  exec d (p ≫= k) w =
  let '(a, w1, log1) := exec d p w in run d (k a) w1 log1.
Proof. apply run_bind. Qed.

(** What each operation does with the reply of its one call. *)
Ltac exec_op d :=
  unfold exec, API.makeRequest; cbn [run mbind mret Prog_bind Prog_ret];
  match goal with
  | |- context [d ?m ?u ?ps ?w] =>
      destruct (d m u ps w) as [[res [err|]] w1]; cbn [fst snd run]
  end.

Lemma exec_CustomHostnames {W} (d : Dispatcher W) w zoneID page filter :
  let uri := "/zones/" +:+ zoneID +:+ "/custom_hostnames"
             +:+ API.list_query page filter in
  let reply := (d "GET" uri nil_params w).1 in
  exec d (API.CustomHostnames zoneID page filter) w =
  (match reply.2 with
   | Some err => (Some [], ResultInfo.zero, Some (Wrap err errMakeRequestError))
   | None =>
       match Unmarshal CustomHostnameListResponse.decode reply.1
               CustomHostnameListResponse.zero with
       | Err e => (Some [], ResultInfo.zero,
                   Some (Wrap (JsonError e) errMakeRequestError))
       | Ok resp => (CustomHostnameListResponse.Result resp,
                     CustomHostnameListResponse.ResultInfo_ resp, None)
       end
   end,
   (d "GET" uri nil_params w).2,
   [mkCall "GET" uri nil_params]).
Proof.
  intros uri reply. subst reply uri. unfold API.CustomHostnames. cbv zeta.
  exec_op d; [reflexivity|].
  destruct (Unmarshal _ _ _); reflexivity.
Qed.

Lemma exec_UpdateCustomHostnameSSL {W} (d : Dispatcher W) w zoneID id ssl :
  let uri := "/zones/" +:+ zoneID +:+ "/custom_hostnames/" +:+ id in
  let reply := (d "PATCH" uri (SSL_params ssl) w).1 in
  exec d (API.UpdateCustomHostnameSSL zoneID id ssl) w =
  (match reply.2 with
   | Some err => (None, Some (Wrap err errMakeRequestError))
   | None =>
       match Unmarshal_ptr CustomHostnameResponse.decode
               CustomHostnameResponse.zero reply.1 with
       | Err e => (None, Some (Wrap (JsonError e) errUnmarshalError))
       | Ok response => (response, None)
       end
   end,
   (d "PATCH" uri (SSL_params ssl) w).2,
   [mkCall "PATCH" uri (SSL_params ssl)]).
Proof.
  intros uri reply. subst reply uri. unfold API.UpdateCustomHostnameSSL. cbv zeta.
  exec_op d; [reflexivity|].
  destruct (Unmarshal_ptr _ _ _); reflexivity.
Qed.

Lemma exec_DeleteCustomHostname {W} (d : Dispatcher W) w zoneID id :
  let uri := "/zones/" +:+ zoneID +:+ "/custom_hostnames/" +:+ id in
  let reply := (d "DELETE" uri nil_params w).1 in
  exec d (API.DeleteCustomHostname zoneID id) w =
  (match reply.2 with
   | Some err => Some (Wrap err errMakeRequestError)
   | None =>
       match Unmarshal_ptr CustomHostnameResponse.decode
               CustomHostnameResponse.zero reply.1 with
       | Err e => Some (Wrap (JsonError e) errUnmarshalError)
       | Ok _ => None
       end
   end,
   (d "DELETE" uri nil_params w).2,
   [mkCall "DELETE" uri nil_params]).
Proof.
  intros uri reply. subst reply uri. unfold API.DeleteCustomHostname. cbv zeta.
  exec_op d; [reflexivity|].
  destruct (Unmarshal_ptr _ _ _); reflexivity.
Qed.

Lemma exec_CreateCustomHostname {W} (d : Dispatcher W) w zoneID ch :
  let uri := "/zones/" +:+ zoneID +:+ "/custom_hostnames" in
  let reply := (d "POST" uri (CustomHostname_params ch) w).1 in
  exec d (API.CreateCustomHostname zoneID ch) w =
  (match reply.2 with
   | Some err => (None, Some (Wrap err errMakeRequestError))
   | None =>
       match Unmarshal_ptr CustomHostnameResponse.decode
               CustomHostnameResponse.zero reply.1 with
       | Err e => (None, Some (Wrap (JsonError e) errUnmarshalError))
       | Ok response => (response, None)
       end
   end,
   (d "POST" uri (CustomHostname_params ch) w).2,
   [mkCall "POST" uri (CustomHostname_params ch)]).
Proof.
  intros uri reply. subst reply uri. unfold API.CreateCustomHostname. cbv zeta.
  exec_op d; [reflexivity|].
  destruct (Unmarshal_ptr _ _ _); reflexivity.
Qed.

Lemma exec_CustomHostname {W} (d : Dispatcher W) w zoneID id :
  let uri := "/zones/" +:+ zoneID +:+ "/custom_hostnames/" +:+ id in
  let reply := (d "GET" uri nil_params w).1 in
  exec d (API.CustomHostname zoneID id) w =
  (match reply.2 with
   | Some err => (CustomHostname.zero, Some (Wrap err errMakeRequestError))
   | None =>
       match Unmarshal CustomHostnameResponse.decode reply.1
               CustomHostnameResponse.zero with
       | Err e => (CustomHostname.zero, Some (Wrap (JsonError e) errUnmarshalError))
       | Ok response => (CustomHostnameResponse.Result response, None)
       end
   end,
   (d "GET" uri nil_params w).2,
   [mkCall "GET" uri nil_params]).
Proof.
  intros uri reply. subst reply uri. unfold API.CustomHostname. cbv zeta.
  exec_op d; [reflexivity|].
  destruct (Unmarshal _ _ _); reflexivity.
Qed.

Lemma exec_UpdateCustomHostnameFallbackOrigin {W} (d : Dispatcher W) w zoneID chfo :
  let uri := "/zones/" +:+ zoneID +:+ "/custom_hostnames/fallback_origin" in
  let reply := (d "PUT" uri (FallbackOrigin_params chfo) w).1 in
  exec d (API.UpdateCustomHostnameFallbackOrigin zoneID chfo) w =
  (match reply.2 with
   | Some err => (None, Some (Wrap err errMakeRequestError))
   | None =>
       match Unmarshal_ptr CustomHostnameFallbackOriginResponse.decode
               CustomHostnameFallbackOriginResponse.zero reply.1 with
       | Err e => (None, Some (Wrap (JsonError e) errUnmarshalError))
       | Ok response => (response, None)
       end
   end,
   (d "PUT" uri (FallbackOrigin_params chfo) w).2,
   [mkCall "PUT" uri (FallbackOrigin_params chfo)]).
Proof.
  intros uri reply. subst reply uri.
  unfold API.UpdateCustomHostnameFallbackOrigin. cbv zeta.
  exec_op d; [reflexivity|].
  destruct (Unmarshal_ptr _ _ _); reflexivity.
Qed.

Lemma exec_CustomHostnameFallbackOrigin {W} (d : Dispatcher W) w zoneID :
  let uri := "/zones/" +:+ zoneID +:+ "/custom_hostnames/fallback_origin" in
  let reply := (d "GET" uri nil_params w).1 in
  exec d (API.CustomHostnameFallbackOrigin zoneID) w =
  (match reply.2 with
   | Some err =>
       (CustomHostnameFallbackOrigin.zero, Some (Wrap err errMakeRequestError))
   | None =>
       match Unmarshal CustomHostnameFallbackOriginResponse.decode reply.1
               CustomHostnameFallbackOriginResponse.zero with
       | Err e => (CustomHostnameFallbackOrigin.zero,
                   Some (Wrap (JsonError e) errUnmarshalError))
       | Ok response => (CustomHostnameFallbackOriginResponse.Result response, None)
       end
   end,
   (d "GET" uri nil_params w).2,
   [mkCall "GET" uri nil_params]).
Proof.
  intros uri reply. subst reply uri.
  unfold API.CustomHostnameFallbackOrigin. cbv zeta.
  exec_op d; [reflexivity|].
  destruct (Unmarshal _ _ _); reflexivity.
Qed.

(** ** Lookup by name *)

Lemma scan_hostnames_found hostname l :
  (exists ch, In ch l /\ CustomHostname.Hostname ch = hostname) ->
  exists ch, In ch l /\ CustomHostname.Hostname ch = hostname /\
             API.scan_hostnames hostname l = (CustomHostname.ID ch, None).
Proof.
  induction l as [|x l IH]; intros [ch [Hin Hch]]; [destruct Hin|].
  cbn [API.scan_hostnames].
  destruct (String.eqb (CustomHostname.Hostname x) hostname) eqn:Hx.
  - apply String.eqb_eq in Hx. exists x. cbn. auto.
  - destruct Hin as [-> | Hin].
    + apply String.eqb_neq in Hx. contradiction.
    + destruct IH as [ch' [Hin' [Hh Hs]]]; [eauto|].
      exists ch'. cbn. auto.
Qed.

Lemma scan_hostnames_missing hostname l :
  (forall ch, In ch l -> CustomHostname.Hostname ch <> hostname) ->
  API.scan_hostnames hostname l =
  ("", Some (New "CustomHostname could not be found")).
Proof.
  induction l as [|x l IH]; intros Hno; [reflexivity|].
  cbn [API.scan_hostnames].
  destruct (String.eqb (CustomHostname.Hostname x) hostname) eqn:Hx.
  - apply String.eqb_eq in Hx. exfalso. apply (Hno x); cbn; auto.
  - apply IH. intros ch Hin. apply Hno. cbn. auto.
Qed.

Lemma scan_hostnames_first hostname pre ch post :
  Forall (fun x => CustomHostname.Hostname x <> hostname) pre ->
  CustomHostname.Hostname ch = hostname ->
  API.scan_hostnames hostname (pre ++ ch :: post) = (CustomHostname.ID ch, None).
Proof.
  intros Hpre Hch. induction Hpre as [|x pre Hx _ IH]; cbn.
  - apply String.eqb_eq in Hch. now rewrite Hch.
  - apply String.eqb_neq in Hx. now rewrite Hx.
Qed.

Lemma exec_CustomHostnameIDByName {W} (d : Dispatcher W) w zoneID hostname :
  let filter := CustomHostname.set_Hostname hostname CustomHostname.zero in
  exec d (API.CustomHostnameIDByName zoneID hostname) w =
  let '(customHostnames, _, err, w1, calls) :=
    exec d (API.CustomHostnames zoneID 1 filter) w in
  (match err with
   | Some err => ("", Some (Wrap err (Text "CustomHostnames command failed")))
   | None => API.scan_hostnames hostname (default [] customHostnames)
   end, w1, calls).
Proof.
  intros filter. unfold API.CustomHostnameIDByName. fold filter.
  rewrite exec_bind, !exec_CustomHostnames. cbv zeta.
  destruct (d "GET" _ nil_params w) as [[res [err|]] w1]; cbn [fst snd];
    [reflexivity|].
  destruct (Unmarshal _ _ _); reflexivity.
Qed.

(** C1.  [CustomHostnameIDByName] runs the list operation once, for page 1
    and the filter that holds the hostname, which makes one [GET] call.  If
    the list operation fails, its error is returned wrapped; if the list
    holds an entry of that very hostname, the ID of such an entry is
    returned with a nil error; if it holds none, the empty string is
    returned with the error "could not be found", which is no wrapped
    error. *)
Theorem CustomHostnameIDByName_spec {W} (d : Dispatcher W) (w : W)
    (zoneID hostname : string) customHostnames info err w1 calls :
  let filter := CustomHostname.set_Hostname hostname CustomHostname.zero in
  exec d (API.CustomHostnames zoneID 1 filter) w
    = (customHostnames, info, err, w1, calls) ->
  calls = [mkCall "GET"
             ("/zones/" +:+ zoneID +:+ "/custom_hostnames"
              +:+ API.list_query 1 filter)
             nil_params] /\
  exists id e,
    exec d (API.CustomHostnameIDByName zoneID hostname) w = (id, e, w1, calls) /\
    match err with
    | Some le => id = "" /\ e = Some (Wrap le (Text "CustomHostnames command failed"))
    | None =>
        let l := default [] customHostnames in
        ((exists ch, In ch l /\ CustomHostname.Hostname ch = hostname) ->
         exists ch, In ch l /\ CustomHostname.Hostname ch = hostname /\
                    id = CustomHostname.ID ch /\ e = None) /\
        ((forall ch, In ch l -> CustomHostname.Hostname ch <> hostname) ->
         id = "" /\ e = Some (New "CustomHostname could not be found") /\
         forall le m, e <> Some (Wrap le m))
    end.
Proof.
  intros filter Hlist. split.
  - pose proof (exec_CustomHostnames d w zoneID 1 filter) as H. cbv zeta in H.
    rewrite Hlist in H. now inversion H.
  - pose proof (exec_CustomHostnameIDByName d w zoneID hostname) as H.
    cbv zeta in H. fold filter in H. rewrite Hlist in H.
    destruct err as [le|].
    + eexists _, _. split; [exact H|]. auto.
    + destruct (API.scan_hostnames hostname (default [] customHostnames))
        as [id e] eqn:Hscan.
      exists id, e. split; [exact H|]. split.
      * intros Hex. destruct (scan_hostnames_found _ _ Hex) as [ch [Hin [Hh Hs]]].
        exists ch. rewrite Hscan in Hs. inversion Hs. auto.
      * intros Hno. rewrite (scan_hostnames_missing _ _ Hno) in Hscan.
        inversion Hscan. repeat split; congruence.
Qed.

Lemma CustomHostnameIDByName_spec_witness :
  exists id e,
    exec (answer sample_page) (API.CustomHostnameIDByName "zone" "a.example.com") tt
      = (id, e, tt,
         [mkCall "GET"
            "/zones/zone/custom_hostnames?hostname=a.example.com&page=1&per_page=50"
            nil_params]) /\
    id = "0d89c70d" /\ e = None.
Proof.
  assert (Hlist :
    exec (answer sample_page)
      (API.CustomHostnames "zone" 1
         (CustomHostname.set_Hostname "a.example.com" CustomHostname.zero)) tt
    = (Some [entry "0d89c70d" "a.example.com"; entry "c2e8" "app.example.com";
             entry "f1aa" "app.example.com"],
       ResultInfo.mk 1 50 0 3, None, tt,
       [mkCall "GET"
          "/zones/zone/custom_hostnames?hostname=a.example.com&page=1&per_page=50"
          nil_params])) by (vm_compute; reflexivity).
  destruct (CustomHostnameIDByName_spec _ _ _ _ _ _ _ _ _ Hlist)
    as [_ [id [e [Hexec [Hfound _]]]]].
  exists id, e. split; [exact Hexec|].
  destruct Hfound as [ch [Hin [Hh [Hid He]]]].
  - exists (entry "0d89c70d" "a.example.com"). split; [left|]; reflexivity.
  - destruct Hin as [<- | [<- | [<- | []]]]; try discriminate Hh.
    split; assumption.
Defined.

(** C10.  When the list of the first page holds several entries of the
    queried hostname, [CustomHostnameIDByName] returns the ID of the first
    of them in the order of the list. *)
Theorem CustomHostnameIDByName_first_match {W} (d : Dispatcher W) (w : W)
    (zoneID hostname : string) pre ch post info w1 calls :
  let filter := CustomHostname.set_Hostname hostname CustomHostname.zero in
  exec d (API.CustomHostnames zoneID 1 filter) w
    = (Some (pre ++ ch :: post), info, None, w1, calls) ->
  Forall (fun x => CustomHostname.Hostname x <> hostname) pre ->
  CustomHostname.Hostname ch = hostname ->
  exec d (API.CustomHostnameIDByName zoneID hostname) w
    = (CustomHostname.ID ch, None, w1, calls).
Proof.
  intros filter Hlist Hpre Hch.
  pose proof (exec_CustomHostnameIDByName d w zoneID hostname) as H.
  cbv zeta in H. fold filter in H. rewrite Hlist in H. rewrite H.
  cbn [default from_option id]. now rewrite scan_hostnames_first.
Qed.

Lemma CustomHostnameIDByName_first_match_witness :
  exec (answer sample_page) (API.CustomHostnameIDByName "zone" "app.example.com") tt
  = ("c2e8", None, tt,
     [mkCall "GET"
        "/zones/zone/custom_hostnames?hostname=app.example.com&page=1&per_page=50"
        nil_params]).
Proof.
  apply (CustomHostnameIDByName_first_match (answer sample_page) tt
           "zone" "app.example.com"
           [entry "0d89c70d" "a.example.com"] (entry "c2e8" "app.example.com")
           [entry "f1aa" "app.example.com"] (ResultInfo.mk 1 50 0 3)).
  - vm_compute. reflexivity.
  - constructor; [discriminate | constructor].
  - reflexivity.
Defined.

(** ** The list operation *)

(** C2.  The one call of [CustomHostnames] is a [GET] whose query holds the
    parameter [per_page] with value 50, the parameter [page] with the
    decimal numeral of the page, and, before them, the parameter [hostname]
    exactly when the filter's hostname is not empty: then once, with the
    hostname escaped once ([QueryUnescape] gives it back). *)
Theorem CustomHostnames_query_parameters {W} (d : Dispatcher W) (w : W)
    (zoneID : string) (page : Z) (filter : CustomHostname.t) :
  let h := CustomHostname.Hostname filter in
  exists q,
    (exec d (API.CustomHostnames zoneID page filter) w).2 =
      [mkCall "GET" ("/zones/" +:+ zoneID +:+ "/custom_hostnames" +:+ "?" +:+ q)
         nil_params] /\
    Url.params q =
      (if String.eqb h "" then [] else [("hostname", Url.QueryEscape h)])
      ++ [("page", Url.Itoa page); ("per_page", "50")] /\
    length (List.filter (fun kv => String.eqb (fst kv) "hostname") (Url.params q))
      = (if String.eqb h "" then 0 else 1) /\
    Url.QueryUnescape (Url.QueryEscape h) = Some h /\
    option_map Z.of_int (NilZero.int_of_string (Url.Itoa page)) = Some page.
Proof.
  intros h.
  destruct (UrlFacts.params_list_query page filter) as [q [Hq Hparams]].
  exists q. rewrite exec_CustomHostnames. cbn [snd]. rewrite Hq.
  repeat split.
  - exact Hparams.
  - rewrite Hparams. fold h. destruct (String.eqb h ""); reflexivity.
  - apply UrlFacts.QueryUnescape_QueryEscape.
  - apply UrlFacts.Itoa_decimal.
Qed.

(** C5.  When [CustomHostnames] returns an error, the sequence it returns
    is the empty slice, which is not nil, and the pagination metadata is the
    zero value. *)
Theorem CustomHostnames_error_results {W} (d : Dispatcher W) (w : W)
    (zoneID : string) (page : Z) (filter : CustomHostname.t)
    customHostnames info e w1 calls :
  exec d (API.CustomHostnames zoneID page filter) w
    = (customHostnames, info, Some e, w1, calls) ->
  customHostnames = Some [] /\ customHostnames <> None /\ info = ResultInfo.zero.
Proof.
  rewrite exec_CustomHostnames. cbv zeta.
  destruct (d "GET" _ nil_params w) as [[res [err|]] w2]; cbn [fst snd].
  - intros [= <- <- _ _ _]. repeat split. discriminate.
  - destruct (Unmarshal _ _ _) as [resp|je].
    + intros [= _ _ _]. 
    + intros [= <- <- _ _ _]. repeat split. discriminate.
Qed.

Lemma CustomHostnames_error_results_witness :
  exec (answer "{") (API.CustomHostnames "zone" 1 CustomHostname.zero) tt
    = (Some [], ResultInfo.zero,
       Some (Wrap (JsonError SyntaxError) errMakeRequestError), tt,
       [mkCall "GET" "/zones/zone/custom_hostnames?page=1&per_page=50" nil_params]) /\
  ((Some [] : slice CustomHostname.t) = Some [] /\
   (Some [] : slice CustomHostname.t) <> None /\
   ResultInfo.zero = ResultInfo.zero).
Proof.
  assert (H :
    exec (answer "{") (API.CustomHostnames "zone" 1 CustomHostname.zero) tt
    = (Some [], ResultInfo.zero,
       Some (Wrap (JsonError SyntaxError) errMakeRequestError), tt,
       [mkCall "GET" "/zones/zone/custom_hostnames?page=1&per_page=50" nil_params]))
    by (vm_compute; reflexivity).
  split; [exact H|].
  exact (CustomHostnames_error_results _ _ _ _ _ _ _ _ _ _ H).
Defined.

(** Decoding an array keeps the number of its elements. *)
Lemma decode_elems_length {A} (dec : decoder A) (zero : A) vs old l :
  decode_elems dec zero vs old = Ok l -> length l = length vs.
Proof.
  revert old l. induction vs as [|v vs IH]; intros old l; cbn.
  - now intros [= <-].
  - destruct (dec v (hd zero old)) as [a|]; cbn; [|discriminate].
    destruct (decode_elems dec zero vs (tl old)) as [r|] eqn:Hr; cbn;
      [|discriminate].
    intros [= <-]. cbn. f_equal. eauto.
Qed.

(** A response whose one member is [result], holding an array: the list
    operation returns as many entries as the array has elements. *)
Lemma CustomHostnames_length_of_array {W} (d : Dispatcher W) (w : W)
    (zoneID : string) (page : Z) (filter : CustomHostname.t) body w1 vs resp :
  d "GET" ("/zones/" +:+ zoneID +:+ "/custom_hostnames"
           +:+ API.list_query page filter) nil_params w = ((body, None), w1) ->
  parse body = Ok (JObject [("result", JArray vs)]) ->
  Unmarshal CustomHostnameListResponse.decode body CustomHostnameListResponse.zero
    = Ok resp ->
  slice_len (exec d (API.CustomHostnames zoneID page filter) w).1.1.1.1
    = length vs.
Proof.
  intros Hd Hparse Hresp. rewrite exec_CustomHostnames. cbv zeta. rewrite Hd.
  cbn [fst snd]. rewrite Hresp. cbn [fst].
  unfold Unmarshal in Hresp. rewrite Hparse in Hresp.
  change (decode_members CustomHostnameListResponse.fields [("result", JArray vs)]
            CustomHostnameListResponse.zero = Ok resp) in Hresp.
  cbn [decode_members] in Hresp.
  change (find_field "result" CustomHostnameListResponse.fields)
    with (Some (into CustomHostnameListResponse.Result
                  CustomHostnameListResponse.set_Result
                  (decode_slice "[]cloudflare.CustomHostname" CustomHostname.decode
                     CustomHostname.zero))) in Hresp.
  unfold into, decode_slice in Hresp. cbn [mbind result_bind] in Hresp.
  cbn [CustomHostnameListResponse.Result CustomHostnameListResponse.zero
       default from_option id] in Hresp.
  destruct (decode_elems CustomHostname.decode CustomHostname.zero vs [])
    as [l|] eqn:Hl; cbn in Hresp; [|discriminate].
  injection Hresp as <-. cbn. eapply decode_elems_length, Hl.
Qed.

(** C8, as stated, fails: the sequence is what the service sent, and a
    service that answers page 1 with 51 entries gets them all returned. *)
Lemma CustomHostnames_length_counterexample :
  ~ (forall W (d : Dispatcher W) (w : W) zoneID page filter,
       (1 <= page)%Z ->
       slice_len (exec d (API.CustomHostnames zoneID page filter) w).1.1.1.1 <= 50).
Proof.
  intros H.
  specialize (H unit (answer body_of_51) tt "zone" 1%Z CustomHostname.zero).
  rewrite exec_CustomHostnames in H. cbv zeta in H. unfold answer in H.
  cbn [fst snd] in H.
  replace (Unmarshal CustomHostnameListResponse.decode body_of_51
             CustomHostnameListResponse.zero)
    with (Ok (CustomHostnameListResponse.mk
                (Some (repeat CustomHostname.zero 51)) Response.zero ResultInfo.zero))
    in H by (vm_compute; reflexivity).
  cbn in H. lia.
Qed.

(** C8, amended.  The sequence that [CustomHostnames] returns is the
    [result] array of the decoded response, whole and in its order, and the
    empty sequence when the operation fails: the operation adds no bound of
    its own, and the sequence has at most 50 entries whenever the array of
    the response has. *)
Theorem CustomHostnames_length {W} (d : Dispatcher W) (w : W)
    (zoneID : string) (page : Z) (filter : CustomHostname.t) body err w1 :
  d "GET" ("/zones/" +:+ zoneID +:+ "/custom_hostnames"
           +:+ API.list_query page filter) nil_params w = ((body, err), w1) ->
  let r := (exec d (API.CustomHostnames zoneID page filter) w).1.1 in
  (r.2 <> None -> slice_len r.1.1 = 0) /\
  (forall resp,
      err = None ->
      Unmarshal CustomHostnameListResponse.decode body
        CustomHostnameListResponse.zero = Ok resp ->
      r.1.1 = CustomHostnameListResponse.Result resp /\
      (slice_len (CustomHostnameListResponse.Result resp) <= 50 ->
       slice_len r.1.1 <= 50)).
Proof.
  intros Hd r. subst r. rewrite exec_CustomHostnames. cbv zeta.
  rewrite Hd. cbn [fst snd]. split.
  - destruct err as [e|]; [reflexivity|].
    destruct (Unmarshal _ _ _); [intros []|]; reflexivity.
  - intros resp -> ->. split; [reflexivity | auto].
Qed.

Lemma CustomHostnames_length_witness :
  slice_len
    (exec (answer sample_page) (API.CustomHostnames "zone" 2 CustomHostname.zero) tt).1.1.1.1
  <= 50.
Proof.
  destruct (CustomHostnames_length (answer sample_page) tt "zone" 2
              CustomHostname.zero sample_page None tt eq_refl) as [_ H].
  destruct (H (CustomHostnameListResponse.mk
                 (Some [entry "0d89c70d" "a.example.com";
                        entry "c2e8" "app.example.com";
                        entry "f1aa" "app.example.com"])
                 Response.zero (ResultInfo.mk 1 50 0 3)) eq_refl)
    as [_ Hle].
  - vm_compute. reflexivity.
  - apply Hle. cbn. lia.
Defined.

(** ** Update of the SSL configuration *)

(** C9.  [UpdateCustomHostnameSSL] makes one call: [PATCH] on the path of
    the custom hostname, with the SSL payload as parameters.  When the call
    succeeds and the body decodes, the decoded envelope is returned with a
    nil error. *)
Theorem UpdateCustomHostnameSSL_spec {W} (d : Dispatcher W) (w : W)
    (zoneID customHostnameID : string) (ssl : CustomHostnameSSL.t) :
  let uri := "/zones/" +:+ zoneID +:+ "/custom_hostnames/" +:+ customHostnameID in
  (exec d (API.UpdateCustomHostnameSSL zoneID customHostnameID ssl) w).2
    = [mkCall "PATCH" uri (SSL_params ssl)] /\
  forall body w1 response,
    d "PATCH" uri (SSL_params ssl) w = ((body, None), w1) ->
    Unmarshal_ptr CustomHostnameResponse.decode CustomHostnameResponse.zero body
      = Ok response ->
    exec d (API.UpdateCustomHostnameSSL zoneID customHostnameID ssl) w
      = (response, None, w1, [mkCall "PATCH" uri (SSL_params ssl)]).
Proof.
  intros uri. rewrite exec_UpdateCustomHostnameSSL. cbv zeta. fold uri.
  split; [reflexivity|].
  intros body w1 response Hd Hu. rewrite Hd. cbn [fst snd]. now rewrite Hu.
Qed.

Lemma UpdateCustomHostnameSSL_spec_witness :
  exists response,
    exec (answer sample_envelope)
      (API.UpdateCustomHostnameSSL "zone" "0d89c70d"
         (CustomHostnameSSL.set_Method "http" CustomHostnameSSL.zero)) tt
    = (Some response, None, tt,
       [mkCall "PATCH" "/zones/zone/custom_hostnames/0d89c70d"
          (SSL_params (CustomHostnameSSL.set_Method "http" CustomHostnameSSL.zero))]) /\
    CustomHostname.ID (CustomHostnameResponse.Result response) = "0d89c70d" /\
    CustomHostnameSSL.Method
      (CustomHostname.SSL (CustomHostnameResponse.Result response)) = "http".
Proof.
  eexists. split.
  - apply (proj2 (UpdateCustomHostnameSSL_spec (answer sample_envelope) tt
                    "zone" "0d89c70d"
                    (CustomHostnameSSL.set_Method "http" CustomHostnameSSL.zero))
             sample_envelope tt).
    + reflexivity.
    + vm_compute. reflexivity.
  - split; reflexivity.
Defined.

(** ** Failures *)

(** C3, as stated, fails: with a body that is no JSON text, the call having
    succeeded, [DeleteCustomHostname] returns an error. *)
Lemma DeleteCustomHostname_swallow_counterexample :
  ~ (forall W (d : Dispatcher W) (w : W) zoneID customHostnameID body w1,
       d "DELETE" ("/zones/" +:+ zoneID +:+ "/custom_hostnames/" +:+ customHostnameID)
         nil_params w = ((body, None), w1) ->
       (exec d (API.DeleteCustomHostname zoneID customHostnameID) w).1.1 = None).
Proof.
  intros H.
  specialize (H unit (answer "{") tt "zone" "id" "{" tt eq_refl).
  vm_compute in H. discriminate.
Qed.

(** C3, amended.  [DeleteCustomHostname] does not swallow a decode failure:
    when the call succeeds and the body does not decode, the error of the
    decoder is returned, wrapped with [errUnmarshalError]; the error is nil
    when the body decodes. *)
Theorem DeleteCustomHostname_decode {W} (d : Dispatcher W) (w : W)
    (zoneID customHostnameID body : string) w1 :
  let uri := "/zones/" +:+ zoneID +:+ "/custom_hostnames/" +:+ customHostnameID in
  d "DELETE" uri nil_params w = ((body, None), w1) ->
  (forall e,
      Unmarshal_ptr CustomHostnameResponse.decode CustomHostnameResponse.zero body
        = Err e ->
      exec d (API.DeleteCustomHostname zoneID customHostnameID) w
        = (Some (Wrap (JsonError e) errUnmarshalError), w1,
           [mkCall "DELETE" uri nil_params])) /\
  (forall response,
      Unmarshal_ptr CustomHostnameResponse.decode CustomHostnameResponse.zero body
        = Ok response ->
      exec d (API.DeleteCustomHostname zoneID customHostnameID) w
        = (None, w1, [mkCall "DELETE" uri nil_params])).
Proof.
  intros uri Hd. rewrite exec_DeleteCustomHostname. cbv zeta. fold uri.
  rewrite Hd. cbn [fst snd]. split; intros x ->; reflexivity.
Qed.

Lemma DeleteCustomHostname_decode_witness :
  exec (answer "{") (API.DeleteCustomHostname "zone" "0d89c70d") tt
  = (Some (Wrap (JsonError SyntaxError) errUnmarshalError), tt,
     [mkCall "DELETE" "/zones/zone/custom_hostnames/0d89c70d" nil_params]).
Proof.
  apply (proj1 (DeleteCustomHostname_decode (answer "{") tt "zone" "0d89c70d"
                  "{" tt eq_refl)).
  vm_compute. reflexivity.
Defined.

(** Whatever the body, a decode failure of the list operation is wrapped
    with [errMakeRequestError]. *)
Lemma CustomHostnames_decode_failure {W} (d : Dispatcher W) (w : W)
    (zoneID : string) (page : Z) (filter : CustomHostname.t) body w1 e :
  d "GET" ("/zones/" +:+ zoneID +:+ "/custom_hostnames"
           +:+ API.list_query page filter) nil_params w = ((body, None), w1) ->
  Unmarshal CustomHostnameListResponse.decode body CustomHostnameListResponse.zero
    = Err e ->
  (exec d (API.CustomHostnames zoneID page filter) w).1.1
    = (Some [], ResultInfo.zero, Some (Wrap (JsonError e) errMakeRequestError)).
Proof.
  intros Hd He. rewrite exec_CustomHostnames. cbv zeta. rewrite Hd.
  cbn [fst snd]. now rewrite He.
Qed.

(** C4 at the list operation: with a body that is no JSON text, the call
    having succeeded, [CustomHostnames] wraps the error of the decoder with
    [errMakeRequestError], the message of a failed call. *)
Theorem CustomHostnames_decode_failure_message :
  exec (answer "{") (API.CustomHostnames "zone" 1 CustomHostname.zero) tt
  = (Some [], ResultInfo.zero,
     Some (Wrap (JsonError SyntaxError) errMakeRequestError), tt,
     [mkCall "GET" "/zones/zone/custom_hostnames?page=1&per_page=50" nil_params]).
Proof. vm_compute. reflexivity. Qed.

(** The other operations wrap the error of the decoder with
    [errUnmarshalError]. *)
Lemma decode_failure_messages {W} (d : Dispatcher W) (w : W) (zoneID body : string) w1 :
  (forall id ssl e,
      d "PATCH" ("/zones/" +:+ zoneID +:+ "/custom_hostnames/" +:+ id)
        (SSL_params ssl) w = ((body, None), w1) ->
      Unmarshal_ptr CustomHostnameResponse.decode CustomHostnameResponse.zero body
        = Err e ->
      (exec d (API.UpdateCustomHostnameSSL zoneID id ssl) w).1.1
        = (None, Some (Wrap (JsonError e) errUnmarshalError))) /\
  (forall ch e,
      d "POST" ("/zones/" +:+ zoneID +:+ "/custom_hostnames")
        (CustomHostname_params ch) w = ((body, None), w1) ->
      Unmarshal_ptr CustomHostnameResponse.decode CustomHostnameResponse.zero body
        = Err e ->
      (exec d (API.CreateCustomHostname zoneID ch) w).1.1
        = (None, Some (Wrap (JsonError e) errUnmarshalError))) /\
  (forall id e,
      d "GET" ("/zones/" +:+ zoneID +:+ "/custom_hostnames/" +:+ id)
        nil_params w = ((body, None), w1) ->
      Unmarshal CustomHostnameResponse.decode body CustomHostnameResponse.zero
        = Err e ->
      (exec d (API.CustomHostname zoneID id) w).1.1
        = (CustomHostname.zero, Some (Wrap (JsonError e) errUnmarshalError))) /\
  (forall chfo e,
      d "PUT" ("/zones/" +:+ zoneID +:+ "/custom_hostnames/fallback_origin")
        (FallbackOrigin_params chfo) w = ((body, None), w1) ->
      Unmarshal_ptr CustomHostnameFallbackOriginResponse.decode
        CustomHostnameFallbackOriginResponse.zero body = Err e ->
      (exec d (API.UpdateCustomHostnameFallbackOrigin zoneID chfo) w).1.1
        = (None, Some (Wrap (JsonError e) errUnmarshalError))) /\
  (forall e,
      d "GET" ("/zones/" +:+ zoneID +:+ "/custom_hostnames/fallback_origin")
        nil_params w = ((body, None), w1) ->
      Unmarshal CustomHostnameFallbackOriginResponse.decode body
        CustomHostnameFallbackOriginResponse.zero = Err e ->
      (exec d (API.CustomHostnameFallbackOrigin zoneID) w).1.1
        = (CustomHostnameFallbackOrigin.zero,
           Some (Wrap (JsonError e) errUnmarshalError))).
Proof.
  repeat split.
  - intros id ssl e Hd He. rewrite exec_UpdateCustomHostnameSSL. cbv zeta.
    rewrite Hd. cbn [fst snd]. now rewrite He.
  - intros ch e Hd He. rewrite exec_CreateCustomHostname. cbv zeta.
    rewrite Hd. cbn [fst snd]. now rewrite He.
  - intros id e Hd He. rewrite exec_CustomHostname. cbv zeta.
    rewrite Hd. cbn [fst snd]. now rewrite He.
  - intros chfo e Hd He. rewrite exec_UpdateCustomHostnameFallbackOrigin. cbv zeta.
    rewrite Hd. cbn [fst snd]. now rewrite He.
  - intros e Hd He. rewrite exec_CustomHostnameFallbackOrigin. cbv zeta.
    rewrite Hd. cbn [fst snd]. now rewrite He.
Qed.

(** C6, as stated, fails at the list operation: when the call fails, the
    sequence returned is not the zero value of its type, the nil slice,
    whatever the error returned with it. *)
Lemma dispatch_failure_zero_counterexample :
  ~ (forall W (d : Dispatcher W) (w : W) zoneID page filter body e w1,
       d "GET" ("/zones/" +:+ zoneID +:+ "/custom_hostnames"
                +:+ API.list_query page filter) nil_params w
         = ((body, Some e), w1) ->
       exists err,
         (exec d (API.CustomHostnames zoneID page filter) w).1.1
           = (None, ResultInfo.zero, Some err)).
Proof.
  intros H.
  destruct (H unit (failing (Foreign "connection refused")) tt "zone" 1%Z
              CustomHostname.zero "" (Foreign "connection refused") tt eq_refl)
    as [err Herr].
  vm_compute in Herr. discriminate.
Qed.

(** C6, amended.  When its call fails with error [e], each operation that
    returns a result returns an error that wraps [e] with
    [errMakeRequestError] ([CustomHostnameIDByName] wraps that error once
    more, with its own message), together with the zero value of its result:
    the nil pointer, the zero struct, the empty string; the list operation
    returns the empty slice, which is not nil, and the zero pagination
    metadata. *)
Theorem dispatch_failure_results {W} (d : Dispatcher W) (w : W)
    (zoneID body : string) (e : error) w1 :
  (forall id ssl,
      d "PATCH" ("/zones/" +:+ zoneID +:+ "/custom_hostnames/" +:+ id)
        (SSL_params ssl) w = ((body, Some e), w1) ->
      (exec d (API.UpdateCustomHostnameSSL zoneID id ssl) w).1.1
        = (None, Some (Wrap e errMakeRequestError))) /\
  (forall ch,
      d "POST" ("/zones/" +:+ zoneID +:+ "/custom_hostnames")
        (CustomHostname_params ch) w = ((body, Some e), w1) ->
      (exec d (API.CreateCustomHostname zoneID ch) w).1.1
        = (None, Some (Wrap e errMakeRequestError))) /\
  (forall page filter,
      d "GET" ("/zones/" +:+ zoneID +:+ "/custom_hostnames"
               +:+ API.list_query page filter) nil_params w
        = ((body, Some e), w1) ->
      (exec d (API.CustomHostnames zoneID page filter) w).1.1
        = (Some [], ResultInfo.zero, Some (Wrap e errMakeRequestError))) /\
  (forall id,
      d "GET" ("/zones/" +:+ zoneID +:+ "/custom_hostnames/" +:+ id)
        nil_params w = ((body, Some e), w1) ->
      (exec d (API.CustomHostname zoneID id) w).1.1
        = (CustomHostname.zero, Some (Wrap e errMakeRequestError))) /\
  (forall hostname,
      d "GET" ("/zones/" +:+ zoneID +:+ "/custom_hostnames"
               +:+ API.list_query 1
                     (CustomHostname.set_Hostname hostname CustomHostname.zero))
        nil_params w = ((body, Some e), w1) ->
      (exec d (API.CustomHostnameIDByName zoneID hostname) w).1.1
        = ("", Some (Wrap (Wrap e errMakeRequestError)
                       (Text "CustomHostnames command failed")))) /\
  (forall chfo,
      d "PUT" ("/zones/" +:+ zoneID +:+ "/custom_hostnames/fallback_origin")
        (FallbackOrigin_params chfo) w = ((body, Some e), w1) ->
      (exec d (API.UpdateCustomHostnameFallbackOrigin zoneID chfo) w).1.1
        = (None, Some (Wrap e errMakeRequestError))) /\
  (d "GET" ("/zones/" +:+ zoneID +:+ "/custom_hostnames/fallback_origin")
     nil_params w = ((body, Some e), w1) ->
   (exec d (API.CustomHostnameFallbackOrigin zoneID) w).1.1
     = (CustomHostnameFallbackOrigin.zero, Some (Wrap e errMakeRequestError))).
Proof.
  repeat split.
  - intros id ssl Hd. rewrite exec_UpdateCustomHostnameSSL. cbv zeta.
    now rewrite Hd.
  - intros ch Hd. rewrite exec_CreateCustomHostname. cbv zeta. now rewrite Hd.
  - intros page filter Hd. rewrite exec_CustomHostnames. cbv zeta. now rewrite Hd.
  - intros id Hd. rewrite exec_CustomHostname. cbv zeta. now rewrite Hd.
  - intros hostname Hd. rewrite exec_CustomHostnameIDByName. cbv zeta.
    rewrite exec_CustomHostnames. cbv zeta. now rewrite Hd.
  - intros chfo Hd. rewrite exec_UpdateCustomHostnameFallbackOrigin. cbv zeta.
    now rewrite Hd.
  - intros Hd. rewrite exec_CustomHostnameFallbackOrigin. cbv zeta. now rewrite Hd.
Qed.

Lemma dispatch_failure_results_witness :
  (exec (failing (Foreign "connection refused"))
     (API.CustomHostname "zone" "0d89c70d") tt).1.1
    = (CustomHostname.zero,
       Some (Wrap (Foreign "connection refused") errMakeRequestError)) /\
  (exec (failing (Foreign "connection refused"))
     (API.CustomHostnameIDByName "zone" "a.example.com") tt).1.1
    = ("", Some (Wrap (Wrap (Foreign "connection refused") errMakeRequestError)
                   (Text "CustomHostnames command failed"))).
Proof.
  destruct (dispatch_failure_results (failing (Foreign "connection refused")) tt
              "zone" "" (Foreign "connection refused") tt)
    as (_ & _ & _ & Hread & Hname & _).
  split; [apply Hread | apply Hname]; reflexivity.
Defined.

(** ** The wire format *)

(** C7 at the zero value: [Marshal] writes the zero [CustomHostname] with
    the keys [ssl] (holding the key [settings]) and [ownership_verification]
    present; the strings, the slices and the map are left out.  Both that
    text and the empty object decode to the zero value. *)
Theorem Marshal_zero_CustomHostname :
  Marshal CustomHostname.encode CustomHostname.zero
    = js "{'ssl':{'settings':{}},'ownership_verification':{}}" /\
  Unmarshal CustomHostname.decode
    (Marshal CustomHostname.encode CustomHostname.zero) CustomHostname.zero
    = Ok CustomHostname.zero /\
  Unmarshal CustomHostname.decode "{}" CustomHostname.zero = Ok CustomHostname.zero.
Proof. repeat split; vm_compute; reflexivity. Qed.

(** * Further properties of the operations *)

(** ** One call each *)

(** X1.  [CreateCustomHostname] makes one call: [POST] on the collection of the
    zone, with the whole payload as parameters.  When the call succeeds and
    the body decodes, the decoded envelope is returned with a nil error. *)
Theorem CreateCustomHostname_spec {W} (d : Dispatcher W) (w : W)
    (zoneID : string) (ch : CustomHostname.t) :
  let uri := "/zones/" +:+ zoneID +:+ "/custom_hostnames" in
  (exec d (API.CreateCustomHostname zoneID ch) w).2
    = [mkCall "POST" uri (CustomHostname_params ch)] /\
  forall body w1 response,
    d "POST" uri (CustomHostname_params ch) w = ((body, None), w1) ->
    Unmarshal_ptr CustomHostnameResponse.decode CustomHostnameResponse.zero body
      = Ok response ->
    exec d (API.CreateCustomHostname zoneID ch) w
      = (response, None, w1, [mkCall "POST" uri (CustomHostname_params ch)]).
Proof.
  intros uri. rewrite exec_CreateCustomHostname. cbv zeta. fold uri.
  split; [reflexivity|].
  intros body w1 response Hd Hu. rewrite Hd. cbn [fst snd]. now rewrite Hu.
Qed.

Lemma CreateCustomHostname_spec_witness :
  exists response,
    exec (answer sample_envelope)
      (API.CreateCustomHostname "zone" (entry "" "a.example.com")) tt
    = (Some response, None, tt,
       [mkCall "POST" "/zones/zone/custom_hostnames"
          (CustomHostname_params (entry "" "a.example.com"))]) /\
    CustomHostname.ID (CustomHostnameResponse.Result response) = "0d89c70d".
Proof.
  eexists. split.
  - apply (proj2 (CreateCustomHostname_spec (answer sample_envelope) tt
                    "zone" (entry "" "a.example.com")) sample_envelope tt).
    + reflexivity.
    + vm_compute. reflexivity.
  - reflexivity.
Defined.

(** X2.  [CustomHostname] makes one call: [GET] on the path of the custom
    hostname, without parameters.  When the call succeeds and the body
    decodes, the [result] of the envelope is returned with a nil error. *)
Theorem CustomHostname_spec {W} (d : Dispatcher W) (w : W)
    (zoneID customHostnameID : string) :
  let uri := "/zones/" +:+ zoneID +:+ "/custom_hostnames/" +:+ customHostnameID in
  (exec d (API.CustomHostname zoneID customHostnameID) w).2
    = [mkCall "GET" uri nil_params] /\
  forall body w1 response,
    d "GET" uri nil_params w = ((body, None), w1) ->
    Unmarshal CustomHostnameResponse.decode body CustomHostnameResponse.zero
      = Ok response ->
    exec d (API.CustomHostname zoneID customHostnameID) w
      = (CustomHostnameResponse.Result response, None, w1,
         [mkCall "GET" uri nil_params]).
Proof.
  intros uri. rewrite exec_CustomHostname. cbv zeta. fold uri.
  split; [reflexivity|].
  intros body w1 response Hd Hu. rewrite Hd. cbn [fst snd]. now rewrite Hu.
Qed.

Lemma CustomHostname_spec_witness :
  exists ch,
    exec (answer sample_envelope) (API.CustomHostname "zone" "0d89c70d") tt
    = (ch, None, tt,
       [mkCall "GET" "/zones/zone/custom_hostnames/0d89c70d" nil_params]) /\
    CustomHostname.ID ch = "0d89c70d" /\
    CustomHostnameSSL.Method (CustomHostname.SSL ch) = "http".
Proof.
  eexists. split.
  - apply (proj2 (CustomHostname_spec (answer sample_envelope) tt
                    "zone" "0d89c70d") sample_envelope tt
             (CustomHostnameResponse.mk
                (CustomHostname.set_SSL
                   (CustomHostnameSSL.set_Method "http" CustomHostnameSSL.zero)
                   (entry "0d89c70d" ""))
                Response.zero)).
    + reflexivity.
    + vm_compute. reflexivity.
  - split; reflexivity.
Defined.

(** X3.  [UpdateCustomHostnameFallbackOrigin] makes one call: [PUT] on the
    fallback origin of the zone, with the payload as parameters.  When the
    call succeeds and the body decodes, the decoded envelope is returned
    with a nil error. *)
Theorem UpdateCustomHostnameFallbackOrigin_spec {W} (d : Dispatcher W) (w : W)
    (zoneID : string) (chfo : CustomHostnameFallbackOrigin.t) :
  let uri := "/zones/" +:+ zoneID +:+ "/custom_hostnames/fallback_origin" in
  (exec d (API.UpdateCustomHostnameFallbackOrigin zoneID chfo) w).2
    = [mkCall "PUT" uri (FallbackOrigin_params chfo)] /\
  forall body w1 response,
    d "PUT" uri (FallbackOrigin_params chfo) w = ((body, None), w1) ->
    Unmarshal_ptr CustomHostnameFallbackOriginResponse.decode
      CustomHostnameFallbackOriginResponse.zero body = Ok response ->
    exec d (API.UpdateCustomHostnameFallbackOrigin zoneID chfo) w
      = (response, None, w1, [mkCall "PUT" uri (FallbackOrigin_params chfo)]).
Proof.
  intros uri. rewrite exec_UpdateCustomHostnameFallbackOrigin. cbv zeta. fold uri.
  split; [reflexivity|].
  intros body w1 response Hd Hu. rewrite Hd. cbn [fst snd]. now rewrite Hu.
Qed.

Lemma UpdateCustomHostnameFallbackOrigin_spec_witness :
  exists response,
    exec (answer sample_fallback)
      (API.UpdateCustomHostnameFallbackOrigin "zone"
         (CustomHostnameFallbackOrigin.mk "fallback.example.com" "" None)) tt
    = (Some response, None, tt,
       [mkCall "PUT" "/zones/zone/custom_hostnames/fallback_origin"
          (FallbackOrigin_params
             (CustomHostnameFallbackOrigin.mk "fallback.example.com" "" None))]) /\
    CustomHostnameFallbackOrigin.Status
      (CustomHostnameFallbackOriginResponse.Result response) = "active".
Proof.
  eexists. split.
  - apply (proj2 (UpdateCustomHostnameFallbackOrigin_spec (answer sample_fallback) tt
                    "zone"
                    (CustomHostnameFallbackOrigin.mk "fallback.example.com" "" None))
             sample_fallback tt).
    + reflexivity.
    + vm_compute. reflexivity.
  - reflexivity.
Defined.

(** X4.  [CustomHostnameFallbackOrigin] makes one call: [GET] on the fallback
    origin of the zone, without parameters.  When the call succeeds and the
    body decodes, the [result] of the envelope is returned with a nil
    error. *)
Theorem CustomHostnameFallbackOrigin_spec {W} (d : Dispatcher W) (w : W)
    (zoneID : string) :
  let uri := "/zones/" +:+ zoneID +:+ "/custom_hostnames/fallback_origin" in
  (exec d (API.CustomHostnameFallbackOrigin zoneID) w).2
    = [mkCall "GET" uri nil_params] /\
  forall body w1 response,
    d "GET" uri nil_params w = ((body, None), w1) ->
    Unmarshal CustomHostnameFallbackOriginResponse.decode body
      CustomHostnameFallbackOriginResponse.zero = Ok response ->
    exec d (API.CustomHostnameFallbackOrigin zoneID) w
      = (CustomHostnameFallbackOriginResponse.Result response, None, w1,
         [mkCall "GET" uri nil_params]).
Proof.
  intros uri. rewrite exec_CustomHostnameFallbackOrigin. cbv zeta. fold uri.
  split; [reflexivity|].
  intros body w1 response Hd Hu. rewrite Hd. cbn [fst snd]. now rewrite Hu.
Qed.

Lemma CustomHostnameFallbackOrigin_spec_witness :
  exec (answer sample_fallback) (API.CustomHostnameFallbackOrigin "zone") tt
  = (CustomHostnameFallbackOrigin.mk "fallback.example.com" "active" None, None, tt,
     [mkCall "GET" "/zones/zone/custom_hostnames/fallback_origin" nil_params]).
Proof.
  apply (proj2 (CustomHostnameFallbackOrigin_spec (answer sample_fallback) tt "zone")
           sample_fallback tt
           (CustomHostnameFallbackOriginResponse.mk
              (CustomHostnameFallbackOrigin.mk "fallback.example.com" "active" None)
              Response.zero)).
  - reflexivity.
  - vm_compute. reflexivity.
Defined.

(** X5.  [DeleteCustomHostname] makes one call, whatever the reply: [DELETE] on
    the path of the custom hostname, without parameters.  When the call
    fails, its error is returned wrapped with [errMakeRequestError], and the
    body is not looked at. *)
Theorem DeleteCustomHostname_dispatch {W} (d : Dispatcher W) (w : W)
    (zoneID customHostnameID : string) :
  let uri := "/zones/" +:+ zoneID +:+ "/custom_hostnames/" +:+ customHostnameID in
  (exec d (API.DeleteCustomHostname zoneID customHostnameID) w).2
    = [mkCall "DELETE" uri nil_params] /\
  forall body e w1,
    d "DELETE" uri nil_params w = ((body, Some e), w1) ->
    exec d (API.DeleteCustomHostname zoneID customHostnameID) w
      = (Some (Wrap e errMakeRequestError), w1, [mkCall "DELETE" uri nil_params]).
Proof.
  intros uri. rewrite exec_DeleteCustomHostname. cbv zeta. fold uri.
  split; [reflexivity|].
  intros body e w1 Hd. now rewrite Hd.
Qed.

Lemma DeleteCustomHostname_dispatch_witness :
  exec (failing (Foreign "connection refused"))
    (API.DeleteCustomHostname "zone" "0d89c70d") tt
  = (Some (Wrap (Foreign "connection refused") errMakeRequestError), tt,
     [mkCall "DELETE" "/zones/zone/custom_hostnames/0d89c70d" nil_params]).
Proof.
  apply (proj2 (DeleteCustomHostname_dispatch (failing (Foreign "connection refused"))
                  tt "zone" "0d89c70d") "" (Foreign "connection refused") tt).
  reflexivity.
Defined.

(** X6.  When the call of [CustomHostnames] succeeds and the body decodes, the
    operation returns the [result] and the [result_info] of the response
    with a nil error: the metadata for paging is the one of the response. *)
Theorem CustomHostnames_success {W} (d : Dispatcher W) (w : W)
    (zoneID : string) (page : Z) (filter : CustomHostname.t) body w1 resp :
  let uri := "/zones/" +:+ zoneID +:+ "/custom_hostnames"
             +:+ API.list_query page filter in
  d "GET" uri nil_params w = ((body, None), w1) ->
  Unmarshal CustomHostnameListResponse.decode body CustomHostnameListResponse.zero
    = Ok resp ->
  exec d (API.CustomHostnames zoneID page filter) w
    = (CustomHostnameListResponse.Result resp,
       CustomHostnameListResponse.ResultInfo_ resp, None, w1,
       [mkCall "GET" uri nil_params]).
Proof.
  intros uri Hd Hu. rewrite exec_CustomHostnames. cbv zeta. fold uri.
  rewrite Hd. cbn [fst snd]. now rewrite Hu.
Qed.

Lemma CustomHostnames_success_witness :
  exists l,
    exec (answer sample_page) (API.CustomHostnames "zone" 1 CustomHostname.zero) tt
    = (Some l, ResultInfo.mk 1 50 0 3, None, tt,
       [mkCall "GET" "/zones/zone/custom_hostnames?page=1&per_page=50" nil_params]) /\
    List.map CustomHostname.ID l = ["0d89c70d"; "c2e8"; "f1aa"].
Proof.
  eexists. split.
  - apply (CustomHostnames_success (answer sample_page) tt "zone" 1
             CustomHostname.zero sample_page tt
             (CustomHostnameListResponse.mk
                (Some [entry "0d89c70d" "a.example.com";
                       entry "c2e8" "app.example.com";
                       entry "f1aa" "app.example.com"])
                Response.zero (ResultInfo.mk 1 50 0 3))).
    + reflexivity.
    + vm_compute. reflexivity.
  - reflexivity.
Defined.

(** ** Nil results and errors *)

(** [Unmarshal] into a nil pointer leaves it nil exactly for the body
    [null]. *)
Lemma Unmarshal_ptr_nil {T} (dec : decoder T) (zero : T) body :
  Unmarshal_ptr dec zero body = Ok None <-> parse body = Ok JNull.
Proof.
  unfold Unmarshal_ptr. destruct (parse body) as [v|e]; cbn.
  - destruct v; cbn; try (destruct (dec _ zero); cbn);
      split; intros H; try discriminate H; reflexivity.
  - split; discriminate.
Qed.

(** X7.  The operations that return a pointer to an envelope return the nil
    pointer with a nil error exactly when the call succeeds with the body
    [null] (up to white space): a nil error does not promise an envelope. *)
Theorem nil_envelope_iff_null {W} (d : Dispatcher W) (w : W)
    (zoneID body : string) w1 :
  (forall id ssl,
      d "PATCH" ("/zones/" +:+ zoneID +:+ "/custom_hostnames/" +:+ id)
        (SSL_params ssl) w = ((body, None), w1) ->
      ((exec d (API.UpdateCustomHostnameSSL zoneID id ssl) w).1.1 = (None, None)
       <-> parse body = Ok JNull)) /\
  (forall ch,
      d "POST" ("/zones/" +:+ zoneID +:+ "/custom_hostnames")
        (CustomHostname_params ch) w = ((body, None), w1) ->
      ((exec d (API.CreateCustomHostname zoneID ch) w).1.1 = (None, None)
       <-> parse body = Ok JNull)) /\
  (forall chfo,
      d "PUT" ("/zones/" +:+ zoneID +:+ "/custom_hostnames/fallback_origin")
        (FallbackOrigin_params chfo) w = ((body, None), w1) ->
      ((exec d (API.UpdateCustomHostnameFallbackOrigin zoneID chfo) w).1.1
         = (None, None)
       <-> parse body = Ok JNull)).
Proof.
  repeat split.
  - rewrite exec_UpdateCustomHostnameSSL. cbv zeta. rewrite H. cbn [fst snd].
    rewrite <- (Unmarshal_ptr_nil CustomHostnameResponse.decode
                  CustomHostnameResponse.zero).
    destruct (Unmarshal_ptr _ _ _) as [[r|]|e]; intros [= ]; reflexivity.
  - rewrite exec_UpdateCustomHostnameSSL. cbv zeta. rewrite H. cbn [fst snd].
    intros Hn%(Unmarshal_ptr_nil CustomHostnameResponse.decode
                 CustomHostnameResponse.zero). now rewrite Hn.
  - rewrite exec_CreateCustomHostname. cbv zeta. rewrite H. cbn [fst snd].
    rewrite <- (Unmarshal_ptr_nil CustomHostnameResponse.decode
                  CustomHostnameResponse.zero).
    destruct (Unmarshal_ptr _ _ _) as [[r|]|e]; intros [= ]; reflexivity.
  - rewrite exec_CreateCustomHostname. cbv zeta. rewrite H. cbn [fst snd].
    intros Hn%(Unmarshal_ptr_nil CustomHostnameResponse.decode
                 CustomHostnameResponse.zero). now rewrite Hn.
  - rewrite exec_UpdateCustomHostnameFallbackOrigin. cbv zeta. rewrite H.
    cbn [fst snd].
    rewrite <- (Unmarshal_ptr_nil CustomHostnameFallbackOriginResponse.decode
                  CustomHostnameFallbackOriginResponse.zero).
    destruct (Unmarshal_ptr _ _ _) as [[r|]|e]; intros [= ]; reflexivity.
  - rewrite exec_UpdateCustomHostnameFallbackOrigin. cbv zeta. rewrite H.
    cbn [fst snd].
    intros Hn%(Unmarshal_ptr_nil CustomHostnameFallbackOriginResponse.decode
                 CustomHostnameFallbackOriginResponse.zero). now rewrite Hn.
Qed.

Lemma nil_envelope_iff_null_witness :
  (exec (answer " null ")
     (API.CreateCustomHostname "zone" (entry "" "a.example.com")) tt).1.1
  = (None, None).
Proof.
  destruct (nil_envelope_iff_null (answer " null ") tt "zone" " null " tt)
    as (_ & Hcreate & _).
  apply (Hcreate (entry "" "a.example.com") eq_refl).
  vm_compute. reflexivity.
Defined.

Lemma scan_hostnames_error hostname l id e :
  API.scan_hostnames hostname l = (id, Some e) -> id = "".
Proof.
  induction l as [|x l IH]; cbn.
  - now intros [= <- _].
  - destruct (String.eqb _ _); [discriminate | exact IH].
Qed.

(** X8.  An operation that returns an error returns no data with it: the nil
    pointer, the zero struct or the empty string, whether the call or the
    decoding failed. *)
Theorem error_results_are_zero {W} (d : Dispatcher W) (w : W) (zoneID : string) :
  (forall id ssl r e,
      (exec d (API.UpdateCustomHostnameSSL zoneID id ssl) w).1.1 = (r, Some e) ->
      r = None) /\
  (forall ch r e,
      (exec d (API.CreateCustomHostname zoneID ch) w).1.1 = (r, Some e) ->
      r = None) /\
  (forall id r e,
      (exec d (API.CustomHostname zoneID id) w).1.1 = (r, Some e) ->
      r = CustomHostname.zero) /\
  (forall hostname r e,
      (exec d (API.CustomHostnameIDByName zoneID hostname) w).1.1 = (r, Some e) ->
      r = "") /\
  (forall chfo r e,
      (exec d (API.UpdateCustomHostnameFallbackOrigin zoneID chfo) w).1.1
        = (r, Some e) ->
      r = None) /\
  (forall r e,
      (exec d (API.CustomHostnameFallbackOrigin zoneID) w).1.1 = (r, Some e) ->
      r = CustomHostnameFallbackOrigin.zero).
Proof.
  repeat split.
  - intros id ssl r e. rewrite exec_UpdateCustomHostnameSSL. cbv zeta.
    destruct (d "PATCH" _ _ w) as [[res [err|]] w1]; cbn [fst snd].
    + now intros [= <- _].
    + destruct (Unmarshal_ptr _ _ _); [discriminate | now intros [= <- _]].
  - intros ch r e. rewrite exec_CreateCustomHostname. cbv zeta.
    destruct (d "POST" _ _ w) as [[res [err|]] w1]; cbn [fst snd].
    + now intros [= <- _].
    + destruct (Unmarshal_ptr _ _ _); [discriminate | now intros [= <- _]].
  - intros id r e. rewrite exec_CustomHostname. cbv zeta.
    destruct (d "GET" _ _ w) as [[res [err|]] w1]; cbn [fst snd].
    + now intros [= <- _].
    + destruct (Unmarshal _ _ _); [discriminate | now intros [= <- _]].
  - intros hostname r e. rewrite exec_CustomHostnameIDByName. cbv zeta.
    rewrite exec_CustomHostnames. cbv zeta.
    destruct (d "GET" _ _ w) as [[res [err|]] w1]; cbn [fst snd].
    + now intros [= <- _].
    + destruct (Unmarshal _ _ _) as [resp|je]; cbn [fst snd].
      * apply scan_hostnames_error.
      * now intros [= <- _].
  - intros chfo r e. rewrite exec_UpdateCustomHostnameFallbackOrigin. cbv zeta.
    destruct (d "PUT" _ _ w) as [[res [err|]] w1]; cbn [fst snd].
    + now intros [= <- _].
    + destruct (Unmarshal_ptr _ _ _); [discriminate | now intros [= <- _]].
  - intros r e. rewrite exec_CustomHostnameFallbackOrigin. cbv zeta.
    destruct (d "GET" _ _ w) as [[res [err|]] w1]; cbn [fst snd].
    + now intros [= <- _].
    + destruct (Unmarshal _ _ _); [discriminate | now intros [= <- _]].
Qed.

Lemma error_results_are_zero_witness :
  exists r e,
    (exec (answer (js "{'result':{'id':7}}")) (API.CustomHostname "zone" "0d89c70d") tt).1.1
      = (r, Some e) /\
    r = CustomHostname.zero.
Proof.
  destruct (error_results_are_zero (answer (js "{'result':{'id':7}}")) tt "zone")
    as (_ & _ & Hread & _).
  eexists _, _. split.
  - vm_compute. reflexivity.
  - eapply (Hread "0d89c70d"). vm_compute. reflexivity.
Defined.

(** ** Lookup by name, further *)

(** X9.  [CustomHostnameIDByName] returns a nil error exactly when the list
    operation succeeds and its list holds an entry of the queried
    hostname. *)
Theorem CustomHostnameIDByName_nil_error_iff {W} (d : Dispatcher W) (w : W)
    (zoneID hostname : string) customHostnames info err w1 calls :
  let filter := CustomHostname.set_Hostname hostname CustomHostname.zero in
  exec d (API.CustomHostnames zoneID 1 filter) w
    = (customHostnames, info, err, w1, calls) ->
  ((exec d (API.CustomHostnameIDByName zoneID hostname) w).1.1.2 = None
   <-> err = None /\
       exists ch, In ch (default [] customHostnames) /\
                  CustomHostname.Hostname ch = hostname).
Proof.
  intros filter Hlist.
  pose proof (exec_CustomHostnameIDByName d w zoneID hostname) as H.
  cbv zeta in H. fold filter in H. rewrite Hlist in H. rewrite H. cbn [fst snd].
  destruct err as [le|]; cbn [snd].
  - split; [discriminate | intros [[=] _]].
  - set (l := default [] customHostnames). split.
    + intros Hnil. split; [reflexivity|].
      clearbody l. induction l as [|x l IH]; cbn in Hnil; [discriminate|].
      destruct (String.eqb (CustomHostname.Hostname x) hostname) eqn:Hx.
      * apply String.eqb_eq in Hx. exists x. cbn. auto.
      * destruct (IH Hnil) as [ch [Hin Hh]]. exists ch. cbn. auto.
    + intros [_ Hex].
      destruct (scan_hostnames_found _ _ Hex) as [ch [_ [_ Hs]]].
      now rewrite Hs.
Qed.

Lemma CustomHostnameIDByName_nil_error_iff_witness :
  (exec (answer sample_page) (API.CustomHostnameIDByName "zone" "b.example.com") tt).1.1.2
  <> None.
Proof.
  intros Hnil.
  assert (Hlist :
    exec (answer sample_page)
      (API.CustomHostnames "zone" 1
         (CustomHostname.set_Hostname "b.example.com" CustomHostname.zero)) tt
    = (Some [entry "0d89c70d" "a.example.com"; entry "c2e8" "app.example.com";
             entry "f1aa" "app.example.com"],
       ResultInfo.mk 1 50 0 3, None, tt,
       [mkCall "GET"
          "/zones/zone/custom_hostnames?hostname=b.example.com&page=1&per_page=50"
          nil_params])) by (vm_compute; reflexivity).
  destruct (proj1 (CustomHostnameIDByName_nil_error_iff _ _ _ _ _ _ _ _ _ Hlist) Hnil)
    as [_ [ch [Hin Hh]]].
  destruct Hin as [<- | [<- | [<- | []]]]; discriminate Hh.
Defined.

(** X10.  [CustomHostnameIDByName] reads the first page only: its result, the
    world it leaves and its calls are those of the reply to the request for
    page 1, whatever the dispatcher would answer to any other request. *)
Theorem CustomHostnameIDByName_first_page_only {W} (d1 d2 : Dispatcher W) (w : W)
    (zoneID hostname : string) :
  let uri := "/zones/" +:+ zoneID +:+ "/custom_hostnames"
             +:+ API.list_query 1
                   (CustomHostname.set_Hostname hostname CustomHostname.zero) in
  d1 "GET" uri nil_params w = d2 "GET" uri nil_params w ->
  exec d1 (API.CustomHostnameIDByName zoneID hostname) w
    = exec d2 (API.CustomHostnameIDByName zoneID hostname) w.
Proof.
  intros uri Hd. rewrite !exec_CustomHostnameIDByName. cbv zeta.
  rewrite !exec_CustomHostnames. cbv zeta. fold uri. now rewrite Hd.
Qed.

Lemma CustomHostnameIDByName_first_page_only_witness :
  let page2 := "/zones/zone/custom_hostnames?hostname=app.example.com&page=2&per_page=50" in
  let d := answer_at page2 sample_page "{}" in
  (exec d (API.CustomHostnames "zone" 2
             (CustomHostname.set_Hostname "app.example.com" CustomHostname.zero)) tt).1.1.1.1
    = Some [entry "0d89c70d" "a.example.com"; entry "c2e8" "app.example.com";
            entry "f1aa" "app.example.com"] /\
  exec d (API.CustomHostnameIDByName "zone" "app.example.com") tt
    = ("", Some (New "CustomHostname could not be found"), tt,
       [mkCall "GET"
          "/zones/zone/custom_hostnames?hostname=app.example.com&page=1&per_page=50"
          nil_params]).
Proof.
  intros page2 d. split.
  - vm_compute. reflexivity.
  - rewrite (CustomHostnameIDByName_first_page_only d (answer "{}") tt
               "zone" "app.example.com").
    + vm_compute. reflexivity.
    + vm_compute. reflexivity.
Defined.

(** X11.  With the empty hostname, [CustomHostnameIDByName] sends no filter: the
    query holds [page] and [per_page] only, and the ID returned is the one
    of the first entry of the page that has no hostname. *)
Theorem CustomHostnameIDByName_empty_hostname {W} (d : Dispatcher W) (w : W)
    (zoneID : string) :
  let uri := "/zones/" +:+ zoneID +:+ "/custom_hostnames" +:+ "?page=1&per_page=50" in
  (exec d (API.CustomHostnameIDByName zoneID "") w).2
    = [mkCall "GET" uri nil_params] /\
  forall body w1 resp pre ch post,
    d "GET" uri nil_params w = ((body, None), w1) ->
    Unmarshal CustomHostnameListResponse.decode body CustomHostnameListResponse.zero
      = Ok resp ->
    CustomHostnameListResponse.Result resp = Some (pre ++ ch :: post) ->
    Forall (fun x => CustomHostname.Hostname x <> "") pre ->
    CustomHostname.Hostname ch = "" ->
    (exec d (API.CustomHostnameIDByName zoneID "") w).1.1
      = (CustomHostname.ID ch, None).
Proof.
  intros uri. rewrite exec_CustomHostnameIDByName. cbv zeta.
  rewrite exec_CustomHostnames. cbv zeta.
  replace (API.list_query 1 (CustomHostname.set_Hostname "" CustomHostname.zero))
    with "?page=1&per_page=50" by (vm_compute; reflexivity).
  fold uri. split.
  - destruct (d "GET" uri nil_params w) as [[res [err|]] w1]; cbn [fst snd];
      [reflexivity|].
    destruct (Unmarshal _ _ _); reflexivity.
  - intros body w1 resp pre ch post Hd Hu Hres Hpre Hch.
    rewrite Hd. cbn [fst snd]. rewrite Hu. cbn [fst snd]. rewrite Hres.
    cbn [default from_option id]. now apply scan_hostnames_first.
Qed.

Lemma CustomHostnameIDByName_empty_hostname_witness :
  (exec (answer sample_page_unnamed) (API.CustomHostnameIDByName "zone" "") tt).1.1
  = ("77aa", None).
Proof.
  apply (proj2 (CustomHostnameIDByName_empty_hostname (answer sample_page_unnamed)
                  tt "zone")
           sample_page_unnamed tt
           (CustomHostnameListResponse.mk
              (Some [entry "c2e8" "app.example.com"; entry "77aa" ""])
              Response.zero ResultInfo.zero)
           [entry "c2e8" "app.example.com"] (entry "77aa" "") []).
  - reflexivity.
  - vm_compute. reflexivity.
  - reflexivity.
  - constructor; [discriminate | constructor].
  - reflexivity.
Defined.

(** ** The entries of a page *)

Lemma decode_elems_pointwise {A} (dec : decoder A) (zero : A) vs l :
  decode_elems dec zero vs [] = Ok l ->
  Forall2 (fun v x => dec v zero = Ok x) vs l.
Proof.
  revert l. induction vs as [|v vs IH]; intros l; cbn.
  - intros [= <-]. constructor.
  - destruct (dec v zero) as [a|] eqn:Ha; cbn; [|discriminate].
    destruct (decode_elems dec zero vs []) as [r|] eqn:Hr; cbn; [|discriminate].
    intros [= <-]. constructor; auto.
Qed.

Lemma decode_members_app {T} (fs : fields T) a b acc :
  decode_members fs (a ++ b) acc
  = match decode_members fs a acc with
    | Ok acc1 => decode_members fs b acc1
    | Err e => Err e
    end.
Proof.
  revert acc. induction a as [|[k v] a IH]; intros acc; cbn; [reflexivity|].
  destruct (find_field k fs) as [dec|]; [|apply IH].
  destruct (dec v acc) as [acc1|e]; cbn; [apply IH | reflexivity].
Qed.

(** A key that is not [result] up to case selects [result_info] or no field
    of the list envelope. *)
Lemma find_field_list_other k :
  fold_name k <> "result" ->
  find_field k CustomHostnameListResponse.fields = None \/
  find_field k CustomHostnameListResponse.fields
  = Some (into CustomHostnameListResponse.ResultInfo_
            CustomHostnameListResponse.set_ResultInfo ResultInfo.decode).
Proof.
  intros Hk. unfold find_field, CustomHostnameListResponse.fields.
  cbn [List.find fst snd].
  destruct (String.eqb "result" k) eqn:E1.
  { apply String.eqb_eq in E1. subst k. exfalso. apply Hk. reflexivity. }
  destruct (String.eqb "result_info" k) eqn:E3; [right; reflexivity|].
  change (fold_name "result") with "result".
  destruct (String.eqb "result" (fold_name k)) eqn:E2.
  { apply String.eqb_eq in E2. congruence. }
  destruct (String.eqb (fold_name "result_info") (fold_name k));
    cbn [option_map snd]; [right | left]; reflexivity.
Qed.

Lemma decode_members_keeps_result ms acc acc1 :
  Forall (fun kv => fold_name (fst kv) <> "result") ms ->
  decode_members CustomHostnameListResponse.fields ms acc = Ok acc1 ->
  CustomHostnameListResponse.Result acc1 = CustomHostnameListResponse.Result acc.
Proof.
  intros Hms. revert acc. induction Hms as [|[k v] ms Hk _ IH]; intros acc; cbn.
  - now intros [= <-].
  - destruct (find_field_list_other k Hk) as [-> | ->]; [apply IH|].
    unfold into at 1.
    destruct (ResultInfo.decode v _) as [i|]; cbn; [|discriminate].
    intros H. now rewrite (IH _ H).
Qed.

(** X12.  The entries that [CustomHostnames] returns are the elements of the
    [result] array of the response, each decoded on its own, in the order of
    the array: when the response is an object with one member [result] that
    holds an array (its other members have other names, in any case of the
    letters) and the response decodes. *)
Theorem CustomHostnames_entries_in_order {W} (d : Dispatcher W) (w : W)
    (zoneID : string) (page : Z) (filter : CustomHostname.t)
    body w1 pre vs post resp :
  d "GET" ("/zones/" +:+ zoneID +:+ "/custom_hostnames"
           +:+ API.list_query page filter) nil_params w = ((body, None), w1) ->
  parse body = Ok (JObject (pre ++ ("result", JArray vs) :: post)) ->
  Forall (fun kv => fold_name (fst kv) <> "result") pre ->
  Forall (fun kv => fold_name (fst kv) <> "result") post ->
  Unmarshal CustomHostnameListResponse.decode body CustomHostnameListResponse.zero
    = Ok resp ->
  exists l,
    (exec d (API.CustomHostnames zoneID page filter) w).1.1.1.1 = Some l /\
    Forall2 (fun v x => CustomHostname.decode v CustomHostname.zero = Ok x) vs l.
Proof.
  intros Hd Hparse Hpre Hpost Hresp.
  rewrite exec_CustomHostnames. cbv zeta. rewrite Hd. cbn [fst snd].
  rewrite Hresp. cbn [fst].
  unfold Unmarshal in Hresp. rewrite Hparse in Hresp.
  change (decode_members CustomHostnameListResponse.fields
            (pre ++ ("result", JArray vs) :: post)
            CustomHostnameListResponse.zero = Ok resp) in Hresp.
  rewrite decode_members_app in Hresp.
  destruct (decode_members _ pre _) as [acc1|] eqn:Hacc1; [|discriminate].
  pose proof (decode_members_keeps_result _ _ _ Hpre Hacc1) as Hnil.
  cbn [decode_members] in Hresp.
  change (find_field "result" CustomHostnameListResponse.fields)
    with (Some (into CustomHostnameListResponse.Result
                  CustomHostnameListResponse.set_Result
                  (decode_slice "[]cloudflare.CustomHostname" CustomHostname.decode
                     CustomHostname.zero))) in Hresp.
  unfold into, decode_slice in Hresp. cbn [mbind result_bind] in Hresp.
  rewrite Hnil in Hresp.
  cbn [CustomHostnameListResponse.Result CustomHostnameListResponse.zero
       default from_option id] in Hresp.
  destruct (decode_elems CustomHostname.decode CustomHostname.zero vs [])
    as [l|] eqn:Hl; cbn in Hresp; [|discriminate].
  exists l. split.
  - now rewrite (decode_members_keeps_result _ _ _ Hpost Hresp).
  - now apply decode_elems_pointwise.
Qed.

Lemma CustomHostnames_entries_in_order_witness :
  exists l,
    (exec (answer sample_page) (API.CustomHostnames "zone" 1 CustomHostname.zero) tt).1.1.1.1
      = Some l /\
    List.map CustomHostname.Hostname l
      = ["a.example.com"; "app.example.com"; "app.example.com"].
Proof.
  destruct (CustomHostnames_entries_in_order (answer sample_page) tt "zone" 1
              CustomHostname.zero sample_page tt
              [("success", JBool true)]
              [JObject [("id", JString "0d89c70d"); ("hostname", JString "a.example.com")];
               JObject [("id", JString "c2e8"); ("hostname", JString "app.example.com")];
               JObject [("id", JString "f1aa"); ("hostname", JString "app.example.com")]]
              [("result_info",
                JObject [("page", JNumber "1"); ("per_page", JNumber "50");
                         ("total_count", JNumber "3")])]
              (CustomHostnameListResponse.mk
                 (Some [entry "0d89c70d" "a.example.com";
                        entry "c2e8" "app.example.com";
                        entry "f1aa" "app.example.com"])
                 Response.zero (ResultInfo.mk 1 50 0 3)))
    as [l [Hl Hall]].
  - reflexivity.
  - vm_compute. reflexivity.
  - repeat constructor. discriminate.
  - repeat constructor. discriminate.
  - vm_compute. reflexivity.
  - exists l. split; [exact Hl|].
    inversion Hall as [|v1 x1 vs1 l1 H1 Hall1]; subst.
    inversion Hall1 as [|v2 x2 vs2 l2 H2 Hall2]; subst.
    inversion Hall2 as [|v3 x3 vs3 l3 H3 Hall3]; subst.
    inversion Hall3; subst.
    vm_compute in H1, H2, H3.
    injection H1 as <-. injection H2 as <-. injection H3 as <-. reflexivity.
Defined.

(** X13.  A response without [result]: the list operation returns the nil slice
    with a nil error, where a failure gives the empty slice that is not nil.
    The response is an object none of whose keys is [result], in any case of
    the letters, and it decodes. *)
Theorem CustomHostnames_missing_result {W} (d : Dispatcher W) (w : W)
    (zoneID : string) (page : Z) (filter : CustomHostname.t) body w1 ms resp :
  d "GET" ("/zones/" +:+ zoneID +:+ "/custom_hostnames"
           +:+ API.list_query page filter) nil_params w = ((body, None), w1) ->
  parse body = Ok (JObject ms) ->
  Forall (fun kv => fold_name (fst kv) <> "result") ms ->
  Unmarshal CustomHostnameListResponse.decode body CustomHostnameListResponse.zero
    = Ok resp ->
  exists info,
    (exec d (API.CustomHostnames zoneID page filter) w).1.1 = (None, info, None).
Proof.
  intros Hd Hparse Hms Hresp.
  rewrite exec_CustomHostnames. cbv zeta. rewrite Hd. cbn [fst snd].
  rewrite Hresp. eexists. f_equal. f_equal.
  unfold Unmarshal in Hresp. rewrite Hparse in Hresp.
  change (decode_members CustomHostnameListResponse.fields ms
            CustomHostnameListResponse.zero = Ok resp) in Hresp.
  now rewrite (decode_members_keeps_result _ _ _ Hms Hresp).
Qed.

Lemma CustomHostnames_missing_result_witness :
  (exec (answer (js "{'success':true,'result_info':{'page':3}}"))
     (API.CustomHostnames "zone" 3 CustomHostname.zero) tt).1.1
  = (None, ResultInfo.mk 3 0 0 0, None).
Proof.
  destruct (CustomHostnames_missing_result
              (answer (js "{'success':true,'result_info':{'page':3}}")) tt
              "zone" 3 CustomHostname.zero
              (js "{'success':true,'result_info':{'page':3}}") tt
              [("success", JBool true);
               ("result_info", JObject [("page", JNumber "3")])]
              (CustomHostnameListResponse.mk None Response.zero (ResultInfo.mk 3 0 0 0)))
    as [info Hinfo].
  - reflexivity.
  - vm_compute. reflexivity.
  - repeat constructor; discriminate.
  - vm_compute. reflexivity.
  - rewrite Hinfo. vm_compute in Hinfo. injection Hinfo as <-. reflexivity.
Defined.

(** * The wire format of the payloads *)

Lemma scan_string_escape_ascii c r :
  is_ascii c = true ->
  scan_string (escape_ascii c +:+ r)
  = match scan_string r with
    | Some (raw, rest) => Some (escape_ascii c +:+ raw, rest)
    | None => None
    end.
Proof.
  destruct c as [b0 b1 b2 b3 b4 b5 b6 b7].
  intros H.
  destruct b7; [destruct b0, b1, b2, b3, b4, b5, b6; discriminate H|]. clear H.
  destruct b0, b1, b2, b3, b4, b5, b6; reflexivity.
Qed.

Lemma unquote_escape_ascii c n r :
  is_ascii c = true ->
  unquote_fuel (S n) (escape_ascii c +:+ r) = String c (unquote_fuel n r).
Proof.
  destruct c as [b0 b1 b2 b3 b4 b5 b6 b7].
  intros H.
  destruct b7; [destruct b0, b1, b2, b3, b4, b5, b6; discriminate H|]. clear H.
  destruct b0, b1, b2, b3, b4, b5, b6; reflexivity.
Qed.

Lemma length_app (a b : string) :
  String.length (a +:+ b) = String.length a + String.length b.
Proof. induction a as [|x a IH]; cbn; [reflexivity | now rewrite IH]. Qed.

Lemma escape_ascii_length c : 1 <= String.length (escape_ascii c).
Proof.
  assert (H : all_bytes (fun c => Nat.leb 1 (String.length (escape_ascii c))) = true)
    by (vm_compute; reflexivity).
  apply Nat.leb_le. revert c. now apply all_bytes_spec.
Qed.

Lemma escape_text_length s : String.length s <= String.length (escape_text s).
Proof.
  induction s as [|c s IH]; cbn; [lia|].
  rewrite length_app. pose proof (escape_ascii_length c). lia.
Qed.

Lemma quote_fuel_ascii n s :
  ascii_string s = true -> String.length s <= n ->
  quote_fuel n s = escape_text s.
Proof.
  revert n. induction s as [|c s IH]; intros n; cbn.
  - destruct n; reflexivity.
  - intros [Hc Hs]%andb_true_iff Hn. destruct n as [|n]; [lia|].
    cbn [quote_fuel]. unfold is_ascii in Hc. rewrite Hc.
    rewrite IH; [reflexivity | assumption | lia].
Qed.

Lemma scan_string_escape_text s rest :
  ascii_string s = true ->
  scan_string (escape_text s +:+ String dquote rest) = Some (escape_text s, rest).
Proof.
  induction s as [|c s IH]; cbn [escape_text ascii_string all_chars].
  - intros _. reflexivity.
  - intros [Hc Hs]%andb_true_iff.
    rewrite append_assoc, scan_string_escape_ascii, IH by assumption.
    reflexivity.
Qed.

Lemma unquote_fuel_escape_text n s :
  ascii_string s = true -> String.length s <= n ->
  unquote_fuel n (escape_text s) = s.
Proof.
  revert n. induction s as [|c s IH]; intros n; cbn [escape_text ascii_string all_chars].
  - intros _ _. destruct n; reflexivity.
  - intros [Hc Hs]%andb_true_iff Hn. destruct n as [|n]; [cbn in Hn; lia|].
    rewrite unquote_escape_ascii by assumption.
    rewrite IH; [reflexivity | assumption | cbn in Hn; lia].
Qed.

Lemma unquote_escape_text s :
  ascii_string s = true -> unquote (escape_text s) = s.
Proof.
  intros Hs. apply unquote_fuel_escape_text; [assumption|].
  apply escape_text_length.
Qed.

Lemma quote_ascii s :
  ascii_string s = true ->
  quote s = String dquote (escape_text s +:+ String dquote "").
Proof. intros Hs. unfold quote. now rewrite quote_fuel_ascii. Qed.

(** Reading back a quoted text. *)
Lemma scan_quote s rest :
  ascii_string s = true ->
  exists raw,
    quote s +:+ rest = String dquote (raw +:+ String dquote rest) /\
    scan_string (raw +:+ String dquote rest) = Some (raw, rest) /\
    unquote raw = s.
Proof.
  intros Hs. exists (escape_text s). rewrite quote_ascii by assumption.
  repeat split.
  - cbn. now rewrite append_assoc.
  - now apply scan_string_escape_text.
  - now apply unquote_escape_text.
Qed.

Lemma render_array vs :
  render (JArray vs) = "[" +:+ join "," (List.map render vs) +:+ "]".
Proof. reflexivity. Qed.

Lemma render_object ms :
  render (JObject ms) = "{" +:+ join "," (List.map render_member ms) +:+ "}".
Proof. reflexivity. Qed.

Lemma render_head v :
  ascii_value v = true -> exists c t, render v = String c t /\ opens c = true.
Proof.
  destruct v as [|[]|lit|s|vs|ms]; try (intros _; eexists _, _; split; reflexivity).
  discriminate.
Qed.

Lemma skip_space_opens c t : opens c = true -> skip_space (String c t) = String c t.
Proof.
  unfold opens. intros [[H _]%andb_true_iff _]%andb_true_iff.
  apply negb_true_iff in H. cbn. now rewrite H.
Qed.

Lemma parse_value_array fuel c t :
  opens c = true ->
  parse_value (S fuel) (String "[" (String c t))
  = match parse_elems fuel (String c t) with
    | Some (vs, r) => Some (JArray vs, r)
    | None => None
    end.
Proof.
  intros Hc. cbn [parse_value].
  change (skip_space (String "[" (String c t))) with (String "[" (String c t)).
  cbv iota beta.
  change (Ascii.eqb "[" "{") with false. change (Ascii.eqb "[" "[") with true.
  cbv iota. rewrite skip_space_opens by assumption.
  unfold opens in Hc. apply andb_true_iff in Hc as [[_ H]%andb_true_iff _].
  apply negb_true_iff in H. now rewrite H.
Qed.

Lemma parse_value_object fuel c t :
  opens c = true ->
  parse_value (S fuel) (String "{" (String c t))
  = match parse_members fuel (String c t) with
    | Some (ms, r) => Some (JObject ms, r)
    | None => None
    end.
Proof.
  intros Hc. cbn [parse_value].
  change (skip_space (String "{" (String c t))) with (String "{" (String c t)).
  cbv iota beta.
  change (Ascii.eqb "{" "{") with true.
  cbv iota. rewrite skip_space_opens by assumption.
  unfold opens in Hc. apply andb_true_iff in Hc as [_ H].
  apply negb_true_iff in H. now rewrite H.
Qed.

Lemma parse_value_string fuel s1 :
  parse_value (S fuel) (String dquote s1)
  = match scan_string s1 with
    | Some (raw, r) => Some (JString (unquote raw), r)
    | None => None
    end.
Proof. reflexivity. Qed.

Lemma parse_elems_step fuel s :
  parse_elems (S fuel) s
  = match parse_value fuel s with
    | Some (v, r) =>
        match skip_space r with
        | String c r1 =>
            if Ascii.eqb c ","
            then match parse_elems fuel r1 with
                 | Some (vs, r2) => Some (v :: vs, r2)
                 | None => None
                 end
            else if Ascii.eqb c "]" then Some ([v], r1) else None
        | EmptyString => None
        end
    | None => None
    end.
Proof. reflexivity. Qed.

Lemma parse_members_step fuel s1 :
  parse_members (S fuel) (String dquote s1)
  = match scan_string s1 with
    | Some (raw, r) =>
        match skip_space r with
        | String c r1 =>
            if Ascii.eqb c ":" then
              match parse_value fuel r1 with
              | Some (v, r2) =>
                  match skip_space r2 with
                  | String d r3 =>
                      if Ascii.eqb d "," then
                        match parse_members fuel r3 with
                        | Some (ms, r4) => Some ((unquote raw, v) :: ms, r4)
                        | None => None
                        end
                      else if Ascii.eqb d "}" then Some ([(unquote raw, v)], r3)
                      else None
                  | EmptyString => None
                  end
              | None => None
              end
            else None
        | EmptyString => None
        end
    | None => None
    end.
Proof. reflexivity. Qed.

(** Parsing what [render] wrote. *)
Lemma parse_render_fuel fuel :
  (forall v rest,
      ascii_value v = true -> need v <= fuel ->
      parse_value fuel (render v +:+ rest) = Some (v, rest)) /\
  (forall v vs rest,
      forallb ascii_value (v :: vs) = true -> need_list need (v :: vs) <= fuel ->
      parse_elems fuel (join "," (List.map render (v :: vs)) +:+ "]" +:+ rest)
      = Some (v :: vs, rest)) /\
  (forall kv ms rest,
      forallb (fun kv => ascii_string (fst kv) && ascii_value (snd kv)) (kv :: ms)
        = true ->
      need_members need (kv :: ms) <= fuel ->
      parse_members fuel (join "," (List.map render_member (kv :: ms)) +:+ "}" +:+ rest)
      = Some (kv :: ms, rest)).
Proof.
  induction fuel as [|fuel (IHv & IHe & IHm)].
  { repeat split.
    - intros v rest _ H. destruct v; cbn in H; lia.
    - intros v vs rest _ H. cbn in H. lia.
    - intros kv ms rest _ H. cbn in H. lia. }
  repeat split.
  - (* values *)
    intros v rest Hv Hn. destruct v as [|[]|lit|s|vs|ms].
    + reflexivity.
    + reflexivity.
    + reflexivity.
    + discriminate.
    + cbn [ascii_value] in Hv.
      destruct (scan_quote s rest Hv) as (raw & Hq & Hscan & Hun).
      cbn [render]. rewrite Hq, parse_value_string, Hscan, Hun. reflexivity.
    + destruct vs as [|v vs]; [reflexivity|].
      cbn [ascii_value] in Hv. cbn [need] in Hn.
      rewrite render_array, !append_assoc.
      assert (Hhd : exists c t,
                 join "," (List.map render (v :: vs)) +:+ "]" +:+ rest = String c t
                 /\ opens c = true).
      { destruct (render_head v) as (c & t & Hr & Hc).
        - cbn in Hv. now apply andb_true_iff in Hv as [? _].
        - cbn [List.map join]. rewrite Hr.
          destruct (List.map render vs); eexists _, _; split; try exact Hc;
            reflexivity. }
      destruct Hhd as (c & t & Hs & Hc).
      change ("[" +:+ join "," (List.map render (v :: vs)) +:+ "]" +:+ rest)
        with (String "[" (join "," (List.map render (v :: vs)) +:+ "]" +:+ rest)).
      rewrite Hs, (parse_value_array _ _ _ Hc), <- Hs.
      rewrite IHe; [reflexivity | assumption | lia].
    + destruct ms as [|kv ms]; [reflexivity|].
      cbn [ascii_value] in Hv. cbn [need] in Hn.
      rewrite render_object, !append_assoc.
      assert (Hhd : exists t,
                 join "," (List.map render_member (kv :: ms)) +:+ "}" +:+ rest
                 = String dquote t).
      { cbn [List.map join].
        destruct (List.map render_member ms); unfold render_member, quote;
          cbn [String.append]; eexists; reflexivity. }
      destruct Hhd as (t & Hs).
      change ("{" +:+ join "," (List.map render_member (kv :: ms)) +:+ "}" +:+ rest)
        with (String "{" (join "," (List.map render_member (kv :: ms)) +:+ "}" +:+ rest)).
      rewrite Hs, (parse_value_object _ dquote t eq_refl), <- Hs.
      rewrite IHm; [reflexivity | assumption | lia].
  - (* elements *)
    intros v vs rest Hvs Hn.
    cbn [forallb] in Hvs. apply andb_true_iff in Hvs as [Hv Hvs].
    cbn [need_list] in Hn.
    rewrite parse_elems_step.
    destruct vs as [|v2 vs].
    + cbn [List.map join]. rewrite IHv; [reflexivity | assumption | lia].
    + change (join "," (List.map render (v :: v2 :: vs)))
        with (render v +:+ "," +:+ join "," (List.map render (v2 :: vs))).
      rewrite !append_assoc. rewrite IHv; [|assumption|lia].
      change (skip_space ("," +:+ join "," (List.map render (v2 :: vs)) +:+ "]" +:+ rest))
        with (String "," (join "," (List.map render (v2 :: vs)) +:+ "]" +:+ rest)).
      cbv iota. change (Ascii.eqb "," ",") with true. cbv iota.
      rewrite IHe; [reflexivity | assumption | lia].
  - (* members *)
    intros [k v] ms rest Hms Hn.
    cbn [forallb fst snd] in Hms.
    apply andb_true_iff in Hms as [[Hk Hv]%andb_true_iff Hms].
    cbn [need_members snd] in Hn.
    assert (Hstep : forall tail,
      parse_members (S fuel) (render_member (k, v) +:+ tail)
      = match skip_space tail with
        | String d r3 =>
            if Ascii.eqb d "," then
              match parse_members fuel r3 with
              | Some (ms, r4) => Some ((k, v) :: ms, r4)
              | None => None
              end
            else if Ascii.eqb d "}" then Some ([(k, v)], r3)
            else None
        | EmptyString => None
        end).
    { intros tail. unfold render_member. cbn [fst snd].
      rewrite !append_assoc.
      destruct (scan_quote k (":" +:+ render v +:+ tail) Hk) as (raw & Hq & Hscan & Hun).
      rewrite Hq, parse_members_step, Hscan, Hun.
      change (skip_space (":" +:+ render v +:+ tail))
        with (String ":" (render v +:+ tail)).
      cbv iota. change (Ascii.eqb ":" ":") with true. cbv iota.
      rewrite IHv; [reflexivity | assumption | lia]. }
    destruct ms as [|kv2 ms].
    + cbn [List.map join]. rewrite Hstep. reflexivity.
    + change (join "," (List.map render_member ((k, v) :: kv2 :: ms)))
        with (render_member (k, v) +:+ "," +:+ join "," (List.map render_member (kv2 :: ms))).
      rewrite !append_assoc, Hstep.
      change (skip_space ("," +:+ join "," (List.map render_member (kv2 :: ms)) +:+ "}" +:+ rest))
        with (String "," (join "," (List.map render_member (kv2 :: ms)) +:+ "}" +:+ rest)).
      cbv iota. change (Ascii.eqb "," ",") with true. cbv iota.
      rewrite IHm; [reflexivity | assumption | lia].
Qed.

Lemma quote_length s : 1 <= String.length (quote s).
Proof. unfold quote. cbn. lia. Qed.

(** Induction on a value, with the property for the values it holds. *)
Lemma value_ind_nested (P : value -> Prop) :
  P JNull -> (forall b, P (JBool b)) -> (forall lit, P (JNumber lit)) ->
  (forall s, P (JString s)) ->
  (forall vs, Forall P vs -> P (JArray vs)) ->
  (forall ms, Forall (fun kv => P (snd kv)) ms -> P (JObject ms)) ->
  forall v, P v.
Proof.
  intros H1 H2 H3 H4 H5 H6. fix IH 1.
  intros [|b|lit|s|vs|ms]; [exact H1 | apply H2 | apply H3 | apply H4 | | ].
  - apply H5. induction vs as [|v vs IHvs]; constructor; [apply IH | exact IHvs].
  - apply H6. induction ms as [|[k v] ms IHms]; constructor; [apply IH | exact IHms].
Qed.

Lemma render_length_pos v : ascii_value v = true -> 1 <= String.length (render v).
Proof.
  intros Hv. destruct (render_head v Hv) as (c & t & -> & _). cbn. lia.
Qed.

Lemma need_le_length v : ascii_value v = true -> need v <= String.length (render v).
Proof.
  induction v as [|b|lit|s|vs IH|ms IH] using value_ind_nested; intros Hv.
  - cbn. lia.
  - destruct b; cbn; lia.
  - discriminate.
  - pose proof (quote_length s). cbn [need render]. lia.
  - cbn [need]. rewrite render_array, !length_app. cbn [String.length].
    cbn [ascii_value] in Hv.
    assert (H : need_list need vs <= String.length (join "," (List.map render vs)) + 1).
    { induction IH as [|v vs Hx _ IHvs]; [cbn; lia|].
      cbn [forallb] in Hv. apply andb_true_iff in Hv as [Hv Hvs].
      specialize (IHvs Hvs). specialize (Hx Hv).
      pose proof (render_length_pos v Hv).
      cbn [need_list List.map].
      destruct vs as [|v2 vs].
      - cbn [join List.map need_list] in *. lia.
      - change (join "," (render v :: List.map render (v2 :: vs)))
          with (render v +:+ "," +:+ join "," (List.map render (v2 :: vs))).
        rewrite !length_app. cbn [String.length]. lia. }
    lia.
  - cbn [need]. rewrite render_object, !length_app. cbn [String.length].
    cbn [ascii_value] in Hv.
    assert (H : need_members need ms
                <= String.length (join "," (List.map render_member ms)) + 1).
    { induction IH as [|[k x] ms Hx _ IHms]; [cbn; lia|].
      cbn [forallb fst snd] in Hv.
      apply andb_true_iff in Hv as [[Hk Hxv]%andb_true_iff Hms].
      specialize (IHms Hms). cbn [snd] in Hx. specialize (Hx Hxv).
      cbn [need_members snd List.map].
      assert (Hlen : need x + 1 <= String.length (render_member (k, x))).
      { unfold render_member. cbn [fst snd]. rewrite !length_app.
        pose proof (quote_length k). cbn [String.length]. lia. }
      destruct ms as [|kv2 ms].
      - cbn [join List.map need_members] in *. lia.
      - change (join "," (render_member (k, x) :: List.map render_member (kv2 :: ms)))
          with (render_member (k, x) +:+ "," +:+ join "," (List.map render_member (kv2 :: ms))).
        rewrite !length_app. cbn [String.length]. lia. }
    lia.
Qed.

(** [parse] reads back what [render] wrote, for a value whose texts are
    ASCII and that holds no number. *)
Lemma parse_render v : ascii_value v = true -> parse (render v) = Ok v.
Proof.
  intros Hv. unfold parse.
  destruct (parse_render_fuel (2 * String.length (render v) + 2)) as [H _].
  specialize (H v "" Hv). rewrite append_nil_r in H.
  rewrite H; [reflexivity|].
  pose proof (need_le_length v Hv). lia.
Qed.

Lemma decode_elems_strings typ l :
  decode_elems (decode_string typ) "" (List.map JString l) [] = Ok l.
Proof.
  induction l as [|x l IH]; [reflexivity|].
  cbn [List.map decode_elems hd tl decode_string mbind result_bind].
  now rewrite IH.
Qed.

Lemma decode_strings typ typ' x l :
  decode_slice typ (decode_string typ') "" (JArray (List.map JString (x :: l))) None
  = Ok (Some (x :: l)).
Proof.
  unfold decode_slice. cbn [default from_option id].
  now rewrite decode_elems_strings.
Qed.

Lemma ascii_strings_value l :
  forallb ascii_string l = true -> forallb ascii_value (List.map JString l) = true.
Proof.
  induction l as [|x l IH]; cbn; [reflexivity|].
  intros [Hx Hl]%andb_true_iff. now rewrite Hx, IH.
Qed.

Lemma FallbackOrigin_decode_encode x :
  CustomHostnameFallbackOrigin.decode (CustomHostnameFallbackOrigin.encode x)
    CustomHostnameFallbackOrigin.zero
  = Ok (norm_FallbackOrigin x).
Proof.
  destruct x as [o s e]. unfold CustomHostnameFallbackOrigin.encode.
  cbn [CustomHostnameFallbackOrigin.Origin CustomHostnameFallbackOrigin.Status
       CustomHostnameFallbackOrigin.Errors].
  destruct o as [|co o], s as [|cs s], e as [[|e1 e]|];
    cbn [omit_string omit_strings app];
    try reflexivity.
  all: unfold CustomHostnameFallbackOrigin.decode, decode_struct;
    cbn [decode_members];
    change (find_field "errors" CustomHostnameFallbackOrigin.fields)
      with (Some (into CustomHostnameFallbackOrigin.Errors
                    CustomHostnameFallbackOrigin.set_Errors
                    (decode_slice "[]string" (decode_string "string") "")));
    try change (find_field "status" CustomHostnameFallbackOrigin.fields)
      with (Some (into CustomHostnameFallbackOrigin.Status
                    CustomHostnameFallbackOrigin.set_Status (decode_string "string")));
    try change (find_field "origin" CustomHostnameFallbackOrigin.fields)
      with (Some (into CustomHostnameFallbackOrigin.Origin
                    CustomHostnameFallbackOrigin.set_Origin (decode_string "string")));
    unfold into; cbn -[decode_slice List.map];
    rewrite decode_strings; reflexivity.
Qed.

Lemma FallbackOrigin_encode_ascii x :
  ascii_FallbackOrigin x = true ->
  ascii_value (CustomHostnameFallbackOrigin.encode x) = true.
Proof.
  destruct x as [o s e]. unfold ascii_FallbackOrigin, ascii_slice.
  cbn [CustomHostnameFallbackOrigin.Origin CustomHostnameFallbackOrigin.Status
       CustomHostnameFallbackOrigin.Errors].
  intros [[Ho Hs]%andb_true_iff He]%andb_true_iff.
  unfold CustomHostnameFallbackOrigin.encode.
  cbn [CustomHostnameFallbackOrigin.Origin CustomHostnameFallbackOrigin.Status
       CustomHostnameFallbackOrigin.Errors ascii_value].
  rewrite !forallb_app.
  assert (Hstr : forall k t, ascii_string k = true -> ascii_string t = true ->
            forallb (fun kv => ascii_string (fst kv) && ascii_value (snd kv))
              (omit_string k t) = true).
  { intros k t Hk Ht. destruct t; [reflexivity|]. cbn [omit_string forallb fst snd ascii_value].
    now rewrite Hk, Ht. }
  rewrite !Hstr by (assumption || reflexivity).
  destruct e as [[|e1 e]|]; try reflexivity.
  cbn [default from_option id] in He. apply ascii_strings_value in He.
  cbn [omit_strings forallb fst snd ascii_value]. now rewrite He.
Qed.

(** X14.  The wire format of a fallback origin, from its tags: [Unmarshal] reads
    back what [Marshal] wrote of a payload of ASCII texts, field by field;
    an empty [Errors] is left out and read back as nil. *)
Theorem FallbackOrigin_round_trip x :
  ascii_FallbackOrigin x = true ->
  Unmarshal CustomHostnameFallbackOrigin.decode
    (Marshal CustomHostnameFallbackOrigin.encode x) CustomHostnameFallbackOrigin.zero
  = Ok (norm_FallbackOrigin x).
Proof.
  intros Hx. unfold Unmarshal, Marshal.
  rewrite parse_render by now apply FallbackOrigin_encode_ascii.
  apply FallbackOrigin_decode_encode.
Qed.

Lemma FallbackOrigin_round_trip_witness :
  Unmarshal CustomHostnameFallbackOrigin.decode
    (Marshal CustomHostnameFallbackOrigin.encode sample_origin)
    CustomHostnameFallbackOrigin.zero
  = Ok sample_origin.
Proof. apply (FallbackOrigin_round_trip sample_origin). reflexivity. Defined.

Lemma SSLSettings_decode_encode x :
  CustomHostnameSSLSettings.decode (CustomHostnameSSLSettings.encode x)
    CustomHostnameSSLSettings.zero
  = Ok (norm_SSLSettings x).
Proof.
  destruct x as [h t m c]. unfold CustomHostnameSSLSettings.encode.
  cbn [CustomHostnameSSLSettings.HTTP2 CustomHostnameSSLSettings.TLS13
       CustomHostnameSSLSettings.MinTLSVersion CustomHostnameSSLSettings.Ciphers].
  destruct h as [|ch h], t as [|ct t], m as [|cm m], c as [[|c1 c]|];
    cbn [omit_string omit_strings app];
    try reflexivity.
  all: unfold CustomHostnameSSLSettings.decode, decode_struct;
    cbn [decode_members];
    change (find_field "ciphers" CustomHostnameSSLSettings.fields)
      with (Some (into CustomHostnameSSLSettings.Ciphers
                    CustomHostnameSSLSettings.set_Ciphers
                    (decode_slice "[]string" (decode_string "string") "")));
    try change (find_field "http2" CustomHostnameSSLSettings.fields)
      with (Some (into CustomHostnameSSLSettings.HTTP2
                    CustomHostnameSSLSettings.set_HTTP2 (decode_string "string")));
    try change (find_field "tls_1_3" CustomHostnameSSLSettings.fields)
      with (Some (into CustomHostnameSSLSettings.TLS13
                    CustomHostnameSSLSettings.set_TLS13 (decode_string "string")));
    try change (find_field "min_tls_version" CustomHostnameSSLSettings.fields)
      with (Some (into CustomHostnameSSLSettings.MinTLSVersion
                    CustomHostnameSSLSettings.set_MinTLSVersion (decode_string "string")));
    unfold into; cbn -[decode_slice List.map];
    rewrite decode_strings; reflexivity.
Qed.

Lemma omit_string_ascii k t :
  ascii_string k = true -> ascii_string t = true ->
  forallb (fun kv => ascii_string (fst kv) && ascii_value (snd kv))
    (omit_string k t) = true.
Proof.
  intros Hk Ht. destruct t; [reflexivity|].
  cbn [omit_string forallb fst snd ascii_value]. now rewrite Hk, Ht.
Qed.

Lemma omit_strings_ascii k l :
  ascii_string k = true -> ascii_slice l = true ->
  forallb (fun kv => ascii_string (fst kv) && ascii_value (snd kv))
    (omit_strings k l) = true.
Proof.
  intros Hk Hl. destruct l as [[|x l]|]; try reflexivity.
  unfold ascii_slice in Hl. cbn [default from_option id] in Hl.
  apply ascii_strings_value in Hl.
  cbn [omit_strings forallb fst snd ascii_value]. now rewrite Hk, Hl.
Qed.

Lemma SSLSettings_encode_ascii x :
  ascii_SSLSettings x = true ->
  ascii_value (CustomHostnameSSLSettings.encode x) = true.
Proof.
  unfold ascii_SSLSettings.
  intros [[[H1 H2]%andb_true_iff H3]%andb_true_iff H4]%andb_true_iff.
  unfold CustomHostnameSSLSettings.encode. cbn [ascii_value].
  rewrite !forallb_app, !omit_string_ascii, omit_strings_ascii
    by (assumption || reflexivity).
  reflexivity.
Qed.

Lemma SSL_decode_encode x :
  CustomHostnameSSL.decode (CustomHostnameSSL.encode x) CustomHostnameSSL.zero
  = Ok (norm_SSL x).
Proof.
  destruct x as [s m t ct cn st]. unfold CustomHostnameSSL.encode.
  cbn [CustomHostnameSSL.Status CustomHostnameSSL.Method CustomHostnameSSL.Type_
       CustomHostnameSSL.CnameTarget CustomHostnameSSL.CnameName
       CustomHostnameSSL.Settings].
  destruct s as [|c1 s], m as [|c2 m], t as [|c3 t], ct as [|c4 ct], cn as [|c5 cn];
    cbn [omit_string app];
    unfold CustomHostnameSSL.decode, decode_struct;
    cbn [decode_members];
    change (find_field "settings" CustomHostnameSSL.fields)
      with (Some (into CustomHostnameSSL.Settings CustomHostnameSSL.set_Settings
                    CustomHostnameSSLSettings.decode));
    try change (find_field "status" CustomHostnameSSL.fields)
      with (Some (into CustomHostnameSSL.Status CustomHostnameSSL.set_Status
                    (decode_string "string")));
    try change (find_field "method" CustomHostnameSSL.fields)
      with (Some (into CustomHostnameSSL.Method CustomHostnameSSL.set_Method
                    (decode_string "string")));
    try change (find_field "type" CustomHostnameSSL.fields)
      with (Some (into CustomHostnameSSL.Type_ CustomHostnameSSL.set_Type
                    (decode_string "string")));
    try change (find_field "cname_target" CustomHostnameSSL.fields)
      with (Some (into CustomHostnameSSL.CnameTarget CustomHostnameSSL.set_CnameTarget
                    (decode_string "string")));
    try change (find_field "cname" CustomHostnameSSL.fields)
      with (Some (into CustomHostnameSSL.CnameName CustomHostnameSSL.set_CnameName
                    (decode_string "string")));
    unfold into;
    cbn -[CustomHostnameSSLSettings.decode CustomHostnameSSLSettings.encode];
    change (CustomHostnameSSLSettings.mk "" "" "" None)
      with CustomHostnameSSLSettings.zero;
    rewrite SSLSettings_decode_encode; reflexivity.
Qed.

Lemma SSL_encode_ascii x :
  ascii_SSL x = true -> ascii_value (CustomHostnameSSL.encode x) = true.
Proof.
  unfold ascii_SSL.
  intros [[[[[H1 H2]%andb_true_iff H3]%andb_true_iff H4]%andb_true_iff
            H5]%andb_true_iff H6]%andb_true_iff.
  unfold CustomHostnameSSL.encode. cbn [ascii_value].
  rewrite !forallb_app, !omit_string_ascii by (assumption || reflexivity).
  cbn [forallb fst snd]. rewrite SSLSettings_encode_ascii by assumption.
  reflexivity.
Qed.

(** X15.  The wire format of the SSL payload of [UpdateCustomHostnameSSL], from
    its tags: [Unmarshal] reads back what [Marshal] wrote of a payload of
    ASCII texts, field by field, the settings included; an empty list of
    ciphers is left out and read back as nil. *)
Theorem SSL_round_trip x :
  ascii_SSL x = true ->
  Unmarshal CustomHostnameSSL.decode (Marshal CustomHostnameSSL.encode x)
    CustomHostnameSSL.zero
  = Ok (norm_SSL x).
Proof.
  intros Hx. unfold Unmarshal, Marshal.
  rewrite parse_render by now apply SSL_encode_ascii.
  apply SSL_decode_encode.
Qed.

Lemma SSL_round_trip_witness :
  Unmarshal CustomHostnameSSL.decode (Marshal CustomHostnameSSL.encode sample_ssl)
    CustomHostnameSSL.zero
  = Ok sample_ssl.
Proof. apply (SSL_round_trip sample_ssl). reflexivity. Defined.

Lemma OwnershipVerification_decode_encode x :
  CustomHostnameOwnershipVerification.decode
    (CustomHostnameOwnershipVerification.encode x)
    CustomHostnameOwnershipVerification.zero
  = Ok x.
Proof.
  destruct x as [t n v]. destruct t, n, v; reflexivity.
Qed.

Lemma OwnershipVerification_encode_ascii x :
  ascii_OwnershipVerification x = true ->
  ascii_value (CustomHostnameOwnershipVerification.encode x) = true.
Proof.
  unfold ascii_OwnershipVerification.
  intros [[H1 H2]%andb_true_iff H3]%andb_true_iff.
  unfold CustomHostnameOwnershipVerification.encode. cbn [ascii_value].
  rewrite !forallb_app, !omit_string_ascii by (assumption || reflexivity).
  reflexivity.
Qed.

Lemma CustomHostname_decode_encode x :
  CustomHostname.CustomMetadata_ x = None ->
  CustomHostname.decode (CustomHostname.encode x) CustomHostname.zero
  = Ok (norm_CustomHostname x).
Proof.
  destruct x as [i h o ssl md s ve ov].
  cbn [CustomHostname.CustomMetadata_]. intros ->.
  unfold CustomHostname.encode.
  cbn [CustomHostname.ID CustomHostname.Hostname CustomHostname.CustomOriginServer
       CustomHostname.SSL CustomHostname.CustomMetadata_ CustomHostname.Status
       CustomHostname.VerificationErrors CustomHostname.OwnershipVerification].
  destruct i as [|c1 i], h as [|c2 h], o as [|c3 o], s as [|c4 s], ve as [[|e1 ve]|];
    cbn [omit_string omit_strings omit_map app];
    unfold CustomHostname.decode, decode_struct;
    cbn [decode_members];
    change (find_field "ssl" CustomHostname.fields)
      with (Some (into CustomHostname.SSL CustomHostname.set_SSL
                    CustomHostnameSSL.decode));
    change (find_field "ownership_verification" CustomHostname.fields)
      with (Some (into CustomHostname.OwnershipVerification
                    CustomHostname.set_OwnershipVerification
                    CustomHostnameOwnershipVerification.decode));
    try change (find_field "id" CustomHostname.fields)
      with (Some (into CustomHostname.ID CustomHostname.set_ID
                    (decode_string "string")));
    try change (find_field "hostname" CustomHostname.fields)
      with (Some (into CustomHostname.Hostname CustomHostname.set_Hostname
                    (decode_string "string")));
    try change (find_field "custom_origin_server" CustomHostname.fields)
      with (Some (into CustomHostname.CustomOriginServer
                    CustomHostname.set_CustomOriginServer (decode_string "string")));
    try change (find_field "status" CustomHostname.fields)
      with (Some (into CustomHostname.Status CustomHostname.set_Status
                    (decode_string "cloudflare.CustomHostnameStatus")));
    try change (find_field "verification_errors" CustomHostname.fields)
      with (Some (into CustomHostname.VerificationErrors
                    CustomHostname.set_VerificationErrors
                    (decode_slice "[]string" (decode_string "string") "")));
    unfold into;
    cbn -[CustomHostnameSSL.decode CustomHostnameSSL.encode
          CustomHostnameOwnershipVerification.decode
          CustomHostnameOwnershipVerification.encode decode_slice List.map];
    change (CustomHostnameSSL.mk "" "" "" "" "" (CustomHostnameSSLSettings.mk "" "" "" None))
      with CustomHostnameSSL.zero;
    change (CustomHostnameOwnershipVerification.mk "" "" "")
      with CustomHostnameOwnershipVerification.zero;
    rewrite SSL_decode_encode;
    cbn -[CustomHostnameOwnershipVerification.decode
          CustomHostnameOwnershipVerification.encode decode_slice List.map];
    rewrite ?decode_strings;
    cbn -[CustomHostnameOwnershipVerification.decode
          CustomHostnameOwnershipVerification.encode];
    rewrite OwnershipVerification_decode_encode; reflexivity.
Qed.

Lemma CustomHostname_encode_ascii x :
  CustomHostname.CustomMetadata_ x = None ->
  ascii_CustomHostname x = true ->
  ascii_value (CustomHostname.encode x) = true.
Proof.
  unfold ascii_CustomHostname. intros Hmd.
  intros [[[[[[H1 H2]%andb_true_iff H3]%andb_true_iff H4]%andb_true_iff
             H5]%andb_true_iff H6]%andb_true_iff H7]%andb_true_iff.
  unfold CustomHostname.encode. rewrite Hmd. cbn [ascii_value omit_map].
  rewrite !forallb_app, !omit_string_ascii, omit_strings_ascii
    by (assumption || reflexivity).
  cbn [forallb fst snd].
  rewrite SSL_encode_ascii, OwnershipVerification_encode_ascii by assumption.
  reflexivity.
Qed.

(** X16.  The wire format of the payload of [CreateCustomHostname], from its
    tags: for a payload of ASCII texts without custom metadata,
    [Unmarshal] reads back what [Marshal] wrote, field by field; the empty
    slices are left out and read back as nil. *)
Theorem CustomHostname_round_trip x :
  CustomHostname.CustomMetadata_ x = None ->
  ascii_CustomHostname x = true ->
  Unmarshal CustomHostname.decode (Marshal CustomHostname.encode x) CustomHostname.zero
  = Ok (norm_CustomHostname x).
Proof.
  intros Hmd Hx. unfold Unmarshal, Marshal.
  rewrite parse_render by now apply CustomHostname_encode_ascii.
  now apply CustomHostname_decode_encode.
Qed.

Lemma CustomHostname_round_trip_witness :
  Unmarshal CustomHostname.decode (Marshal CustomHostname.encode sample_hostname)
    CustomHostname.zero
  = Ok sample_hostname.
Proof.
  apply (CustomHostname_round_trip sample_hostname); reflexivity.
Defined.
